(** * nvidia_exporter: the collector of [nvidia_exporter.go]

    A shallow embedding of the Prometheus collector of the exporter
    ([NewExporter], [GetTelemetryFromNVML], [Collect]) and the proofs of
    its scrape-cycle properties.

    Conventions of the embedding.
    - Go [int] values are never computed with, only carried: they are [Z].
    - A gauge stores [float64(v)] of an integer [v]; the model stores [v]
      itself (the conversion is a function of [v], exact below 2^53).
    - An [error] is its [Error()] text.
    - [map[string]*prometheus.GaugeVec] is a [gmap string GaugeVec]; the
      vectors are created once by [NewExporter] and never aliased, so a
      mutation through the pointer is an [alter] at the vector's key.
    - The methods of [Device] call the NVML driver.  Their answers during
      one cycle are given by an oracle [NVML], indexed by the iteration of
      the device loop that issues the query and by the device.
    - Go panics (a nil [*GaugeVec], a label-arity mismatch in
      [WithLabelValues]) are an outcome of the monad [M]; [defer] runs its
      function on both outcomes.
    - Every observable action is also recorded in a [trace] of events, in
      program order; the metrics written to the channel are [sent].
    - The channel carries the gauges themselves.  [sent] has each one
      with the value it holds at the send; [readMetric] is what a reader
      gets when it reads one later, the shared health gauge included.

    The file has the embedding first, then the vocabulary of the
    statements and the example inputs, then the lemmas on the state
    changes, the device loop and the cycle, and the theorems on the
    scrape cycle (C1-C5, C7-C10) where their lemmas are at hand.  Then
    come further properties of [Collect], [GetTelemetryFromNVML],
    [NewExporter] and [Describe], and last the reader of the channel
    across two cycles (C6). *)

From stdpp Require Import gmap strings list fin_maps pretty.

Local Open Scope Z_scope.
Local Open Scope string_scope.
Local Open Scope list_scope.

(** ** Data *)

(** [VecInfo] (lines 15-18). *)
Record VecInfo := mkVecInfo {
  help : string;
  labels : list string;
}.

(** The fields of [Device] that the collector reads. *)
Record Device := mkDevice {
  i : Z;
  DeviceUUID : string;
  DeviceName : string;
}.

Record NVMLMemory := mkNVMLMemory {
  Free : Z;
  Total : Z;
  Used : Z;
}.

Definition error := string.

(** What the driver answers, in one cycle, to the query that iteration
    [k] of the device loop issues on [device]. *)
Record NVML := mkNVML {
  GetUtilization : nat → Device → error + (Z * Z);
  GetTemperature : nat → Device → error + (Z * Z);
  GetPowerUsage : nat → Device → error + Z;
  GetMemoryInfo : nat → Device → error + NVMLMemory;
}.

(** A [prometheus.GaugeVec]: its descriptor (fully qualified name and
    variable label names) and its children, keyed by label values. *)
Record GaugeVec := mkGaugeVec {
  fqName : string;
  variableLabels : list string;
  children : gmap (list string) Z;
}.

(** A [prometheus.Metric] as it is written to the channel: descriptor,
    label values, and the value the gauge has when it is sent. *)
Record Metric := mkMetric {
  metricName : string;
  labelNames : list string;
  labelValues : list string;
  metricValue : Z;
}.

(** [Exporter] (lines 64-71); the mutex is visible through the events
    [EvLock] and [EvUnlock]. *)
Record Exporter := mkExporter {
  up : Z;
  gauges : gmap string GaugeVec;
  devices : list Device;
}.

Inductive QueryClass := Utilization | Temperature | PowerUsage | MemoryInfo.

Inductive Event :=
  | EvLock
  | EvUnlock
  | EvReset (name : string)
  | EvUpSet (v : Z)
  | EvQuery (k : nat) (c : QueryClass) (ok : bool)
  | EvPrintf (line : string)
  | EvSet (name : string) (lvs : list string) (v : Z)
  | EvSend (m : Metric).

Global Instance QueryClass_eq_dec : EqDecision QueryClass.
Proof. solve_decision. Defined.
Global Instance Metric_eq_dec : EqDecision Metric.
Proof. solve_decision. Defined.
Global Instance Event_eq_dec : EqDecision Event.
Proof. solve_decision. Defined.

(** The state a cycle runs in: the exporter, the channel [ch] of
    [Collect] and the trace. *)
Record World := mkWorld {
  exporter : Exporter;
  sent : list Metric;
  trace : list Event;
}.

(** ** The monad of the collector *)

Inductive Outcome (A : Type) :=
  | Ret (a : A)
  | Panic (msg : string).
Global Arguments Ret {A} a.
Global Arguments Panic {A} msg.

Definition M (A : Type) : Type := World → Outcome A * World.

Definition ret {A} (a : A) : M A := λ w, (Ret a, w).

Definition bind {A B} (m : M A) (f : A → M B) : M B := λ w,
  match m w with
  | (Ret a, w') => f a w'
  | (Panic msg, w') => (Panic msg, w')
  end.

Notation "m ;; n" := (bind m (λ _, n))
  (at level 100, n at level 200, right associativity).

(** [defer d; body]: [d] runs when [body] ends, whatever its outcome. *)
Definition defer (d : M unit) (body : M unit) : M unit := λ w,
  match body w with
  | (o, w') =>
      match d w' with
      | (Ret _, w'') => (o, w'')
      | (Panic msg, w'') => (Panic msg, w'')
      end
  end.

Definition modify (f : World → World) : M unit := λ w, (Ret tt, f w).

Definition log (ev : Event) (w : World) : World :=
  mkWorld (exporter w) (sent w) (trace w ++ [ev]).

Definition setGauges (g : gmap string GaugeVec) (w : World) : World :=
  mkWorld (mkExporter (up (exporter w)) g (devices (exporter w)))
          (sent w) (trace w).

Definition setUp (v : Z) (w : World) : World :=
  mkWorld (mkExporter v (gauges (exporter w)) (devices (exporter w)))
          (sent w) (trace w).

Definition send (ms : list Metric) (w : World) : World :=
  mkWorld (exporter w) (sent w ++ ms) (trace w ++ (EvSend <$> ms)).

(** ** The Prometheus client, as far as the collector uses it *)

Definition DefaultNamespace : string := "nvml".

(** [prometheus.BuildFQName] with an empty subsystem. *)
Definition BuildFQName (namespace name : string) : string :=
  namespace +:+ "_" +:+ name.

Definition NewGaugeVec (name : string) (info : VecInfo) : GaugeVec :=
  mkGaugeVec (BuildFQName DefaultNamespace name) (labels info) ∅.

(** [vec.Reset()]. *)
Definition Reset (vec : GaugeVec) : GaugeVec :=
  mkGaugeVec (fqName vec) (variableLabels vec) ∅.

(** [vec.WithLabelValues(lvs...).Set(v)] on the vector itself. *)
Definition SetChild (lvs : list string) (v : Z) (vec : GaugeVec) : GaugeVec :=
  mkGaugeVec (fqName vec) (variableLabels vec) (<[lvs := v]> (children vec)).

(** The metrics [vec.Collect(ch)] writes. *)
Definition vecCollect (vec : GaugeVec) : list Metric :=
  (λ kv, mkMetric (fqName vec) (variableLabels vec) kv.1 kv.2)
    <$> map_to_list (children vec).

(** [e.up.Set(v)]. *)
Definition upSet (v : Z) : M unit :=
  modify (λ w, log (EvUpSet v) (setUp v w)).

(** The child [lvs] of the vector [name] is created or overwritten. *)
Definition writeChild (name : string) (lvs : list string) (v : Z) (w : World)
  : World :=
  log (EvSet name lvs v)
      (setGauges (alter (SetChild lvs v) name (gauges (exporter w))) w).

(** [e.gauges[name].WithLabelValues(lvs...).Set(v)]: a missing key gives
    a nil vector, and a wrong number of label values is refused. *)
Definition gaugeSet (name : string) (lvs : list string) (v : Z) : M unit := λ w,
  match gauges (exporter w) !! name with
  | None => (Panic "nil pointer dereference", w)
  | Some vec =>
      if decide (length lvs = length (variableLabels vec)) then
        (Ret tt, writeChild name lvs v w)
      else (Panic "inconsistent label cardinality", w)
  end.

Definition Printf (line : string) : M unit := modify (log (EvPrintf line)).

(** [strconv.Itoa]. *)
Definition Itoa (n : Z) : string := pretty n.

(** ** The exporter *)

Definition deviceLabels : list string :=
  ["device_id"; "device_uuid"; "device_name"].

(** [gaugeMetrics] (lines 27-60). *)
Definition gaugeMetrics : gmap string VecInfo :=
  list_to_map [
    ("power_watts",
       mkVecInfo "Power Usage of an NVIDIA GPU in Watts" deviceLabels);
    ("gpu_percent",
       mkVecInfo "Percent of GPU Utilized" deviceLabels);
    ("memory_free",
       mkVecInfo "Number of bytes free in the GPU Memory" deviceLabels);
    ("memory_total",
       mkVecInfo "Total bytes of the GPU's memory" deviceLabels);
    ("memory_used",
       mkVecInfo "Total number of bytes used in the GPU Memory" deviceLabels);
    ("memory_percent",
       mkVecInfo "Percent of GPU Memory Utilized" deviceLabels);
    ("temperature_fahrenheit",
       mkVecInfo "GPU Temperature in Fahrenheit" deviceLabels);
    ("temperature_celsius",
       mkVecInfo "GPU Temperature in Celsius" deviceLabels)
  ].

(** [NewExporter] (lines 74-96), given what [GetDevices()] returned.  On
    an error the exporter is returned with no vector registered. *)
Definition NewExporter (got : list Device * option error)
  : Exporter * option error :=
  let exp := mkExporter 0 ∅ got.1 in
  match got.2 with
  | Some err => (exp, Some err)
  | None =>
      (mkExporter (up exp)
         (map_imap (λ name info, Some (NewGaugeVec name info)) gaugeMetrics)
         (devices exp), None)
  end.

(** The label values every device-scoped write passes to
    [WithLabelValues] (lines 124-149). *)
Definition deviceLabelValues (device : Device) : list string :=
  [Itoa (i device); DeviceUUID device; DeviceName device].

Definition newline : string := String (Ascii.ascii_of_nat 10) "".

(** [fmt.Printf("Failed to get <what> for %s: %s\n", uuid, err.Error())]. *)
Definition failedToGet (what : string) (device : Device) (err : error)
  : string :=
  "Failed to get " +:+ what +:+ " for " +:+ DeviceUUID device +:+ ": "
    +:+ err +:+ newline.

(** A driver query issued by iteration [k]; the answer is [r]. *)
Definition query {A} (k : nat) (c : QueryClass) (r : error + A)
  : M (error + A) :=
  λ w, (Ret r,
        log (EvQuery k c match r with inl _ => false | inr _ => true end) w).

(** The [for _, device := range e.devices] loop of
    [GetTelemetryFromNVML] (lines 118-150); a [return] ends the loop and
    the function. *)
Fixpoint telemetryLoop (nvml : NVML) (k : nat) (ds : list Device) : M unit :=
  match ds with
  | [] => ret tt
  | device :: rest =>
      let lvs := deviceLabelValues device in
      bind (query k Utilization (GetUtilization nvml k device)) (λ r,
      match r with
      | inl err =>
          Printf (failedToGet "Device Utilization" device err);;
          upSet 0
      | inr (gpuPercent, memoryPercent) =>
          gaugeSet "gpu_percent" lvs gpuPercent;;
          gaugeSet "memory_percent" lvs memoryPercent;;
          bind (query k Temperature (GetTemperature nvml k device)) (λ r,
          match r with
          | inl err =>
              Printf (failedToGet "Device Temperature" device err);;
              upSet 0
          | inr (tempF, tempC) =>
              gaugeSet "temperature_celsius" lvs tempC;;
              gaugeSet "temperature_fahrenheit" lvs tempF;;
              bind (query k PowerUsage (GetPowerUsage nvml k device)) (λ r,
              match r with
              | inl err =>
                  Printf (failedToGet "Device Power Usage" device err);;
                  upSet 0
              | inr powerUsage =>
                  gaugeSet "power_watts" lvs powerUsage;;
                  bind (query k MemoryInfo (GetMemoryInfo nvml k device)) (λ r,
                  match r with
                  | inl err =>
                      Printf (failedToGet "Memory Info" device err);;
                      upSet 0
                  | inr gpuMem =>
                      gaugeSet "memory_free" lvs (Free gpuMem);;
                      gaugeSet "memory_total" lvs (Total gpuMem);;
                      gaugeSet "memory_used" lvs (Used gpuMem);;
                      telemetryLoop nvml (S k) rest
                  end)
              end)
          end)
      end)
  end.

Definition GetTelemetryFromNVML (nvml : NVML) : M unit :=
  λ w, telemetryLoop nvml 0 (devices (exporter w)) w.

(** One iteration of [for _, vec := range e.gauges { vec.Reset() }]. *)
Definition vecReset (w : World) (name : string) : World :=
  log (EvReset name) (setGauges (alter Reset name (gauges (exporter w))) w).

(** The reset loop (lines 159-161).  Go leaves the order of a map range
    open; the model takes the order of [map_to_list]. *)
Definition resetGauges : M unit :=
  λ w, (Ret tt, foldl vecReset w (map_to_list (gauges (exporter w))).*1).

(** The collect loop (lines 170-172). *)
Definition collectGauges : M unit :=
  λ w, (Ret tt, foldl (λ w' kv, send (vecCollect kv.2) w') w
                  (map_to_list (gauges (exporter w)))).

(** The [up] gauge of [NewExporter] as a metric. *)
Definition upMetric (v : Z) : Metric :=
  mkMetric (BuildFQName DefaultNamespace "up") [] [] v.

(** [ch <- e.up] (line 163).  The gauge itself goes on the channel; the
    metric recorded here holds the value the gauge has at the send.  What
    a reader gets from it later is [readMetric]. *)
Definition sendUp : M unit :=
  λ w, (Ret tt, send [upMetric (up (exporter w))] w).

(** [Collect] (lines 155-173). *)
Definition Collect (nvml : NVML) : M unit :=
  modify (log EvLock);;
  defer (modify (log EvUnlock)) (
    resetGauges;;
    defer sendUp (
      upSet 1;;
      GetTelemetryFromNVML nvml;;
      collectGauges)).

(** A [prometheus.Desc], as far as the model of a vector carries it: the
    fully qualified name and the variable label names (the help text is
    not kept in [GaugeVec]). *)
Record Desc := mkDesc {
  descName : string;
  descLabels : list string;
}.

Global Instance Desc_eq_dec : EqDecision Desc.
Proof. solve_decision. Defined.

(** [e.up.Desc()]: the gauge of [NewExporter] (lines 77-81) has no
    variable label. *)
Definition upDesc : Desc := mkDesc (BuildFQName DefaultNamespace "up") [].

(** The descriptor [vec.Describe(ch)] writes. *)
Definition vecDescribe (vec : GaugeVec) : list Desc :=
  [mkDesc (fqName vec) (variableLabels vec)].

(** [Describe] (lines 100-106): the descriptors it writes to the
    channel, in order.  It reads the exporter only, and does not take the
    lock. *)
Definition Describe (e : Exporter) : list Desc :=
  upDesc :: (kv ← map_to_list (gauges e); vecDescribe kv.2).

(** *** The reader of the channel *)

(** The metrics one call of [Collect] writes to its channel. *)
Definition channelOf (nvml : NVML) (w : World) : list Metric :=
  drop (length (sent w)) (sent (Collect nvml w).2).

(** What a reader gets when it calls [Write] on a metric of the channel
    while the exporter is [now].  The channel carries the gauges
    themselves.  Line 163 sends [e.up], the one health gauge of the
    exporter, so the reader gets the value [e.up] holds at the read.  A
    child of a vector (line 171) is dropped from its vector by the next
    [vec.Reset()] (line 160), and the writes of later cycles go to new
    children: it is never written after its cycle and the reader gets
    the value it had at the send. *)
Definition readMetric (now : Exporter) (m : Metric) : Metric :=
  if decide (mkDesc (metricName m) (labelNames m) = upDesc)
  then upMetric (up now) else m.

(** What the reader of the channel of one call gathers when it reads
    while the exporter is [now]. *)
Definition gathered (nvml : NVML) (w : World) (now : Exporter) : list Metric :=
  readMetric now <$> channelOf nvml w.

(** ** Observations *)

(** The value the registry holds for metric [name] under label values
    [lvs], if any. *)
Definition entry (g : gmap string GaugeVec) (name : string) (lvs : list string)
  : option Z :=
  vec ← g !! name; children vec !! lvs.

(** The registry of a world, read at a metric name and label values. *)
Definition entryOf (w : World) (name : string) (lvs : list string) : option Z :=
  entry (gauges (exporter w)) name lvs.

Definition upOf (w : World) : Z := up (exporter w).

Definition devicesOf (w : World) : list Device := devices (exporter w).

(** The gauges have the shape [NewExporter] gave them: one vector per
    catalog entry, with its descriptor, and no other; the children are
    free. *)
Definition shaped (g : gmap string GaugeVec) : Prop :=
  ∀ name, Reset <$> g !! name = NewGaugeVec name <$> gaugeMetrics !! name.

Definition Shaped (w : World) : Prop := shaped (gauges (exporter w)).

(** The value a fully answered device gets for metric [name]. *)
Definition reading (nvml : NVML) (k : nat) (device : Device) (name : string)
  : option Z :=
  if decide (name = "gpu_percent") then
    match GetUtilization nvml k device with inr r => Some r.1 | inl _ => None end
  else if decide (name = "memory_percent") then
    match GetUtilization nvml k device with inr r => Some r.2 | inl _ => None end
  else if decide (name = "temperature_fahrenheit") then
    match GetTemperature nvml k device with inr r => Some r.1 | inl _ => None end
  else if decide (name = "temperature_celsius") then
    match GetTemperature nvml k device with inr r => Some r.2 | inl _ => None end
  else if decide (name = "power_watts") then
    match GetPowerUsage nvml k device with inr r => Some r | inl _ => None end
  else if decide (name = "memory_free") then
    match GetMemoryInfo nvml k device with inr r => Some (Free r) | inl _ => None end
  else if decide (name = "memory_total") then
    match GetMemoryInfo nvml k device with inr r => Some (Total r) | inl _ => None end
  else if decide (name = "memory_used") then
    match GetMemoryInfo nvml k device with inr r => Some (Used r) | inl _ => None end
  else None.

(** The error of the query of class [c] issued by iteration [k], if it
    fails. *)
Definition queryErr (nvml : NVML) (k : nat) (device : Device) (c : QueryClass)
  : option error :=
  match c with
  | Utilization =>
      match GetUtilization nvml k device with inl err => Some err | inr _ => None end
  | Temperature =>
      match GetTemperature nvml k device with inl err => Some err | inr _ => None end
  | PowerUsage =>
      match GetPowerUsage nvml k device with inl err => Some err | inr _ => None end
  | MemoryInfo =>
      match GetMemoryInfo nvml k device with inl err => Some err | inr _ => None end
  end.

(** The class of the first query of iteration [k] that fails, in the
    order of the loop body. *)
Definition firstFailure (nvml : NVML) (k : nat) (device : Device)
  : option QueryClass :=
  match GetUtilization nvml k device with
  | inl _ => Some Utilization
  | inr _ =>
      match GetTemperature nvml k device with
      | inl _ => Some Temperature
      | inr _ =>
          match GetPowerUsage nvml k device with
          | inl _ => Some PowerUsage
          | inr _ =>
              match GetMemoryInfo nvml k device with
              | inl _ => Some MemoryInfo
              | inr _ => None
              end
          end
      end
  end.

(** The metrics the loop body has written for a device when it issues
    the query of class [c]. *)
Definition writtenBefore (c : QueryClass) : list string :=
  match c with
  | Utilization => []
  | Temperature => ["gpu_percent"; "memory_percent"]
  | PowerUsage =>
      ["gpu_percent"; "memory_percent";
       "temperature_celsius"; "temperature_fahrenheit"]
  | MemoryInfo =>
      ["gpu_percent"; "memory_percent";
       "temperature_celsius"; "temperature_fahrenheit"; "power_watts"]
  end.

(** Every query of iteration [k] succeeds. *)
Definition allOk (nvml : NVML) (k : nat) (device : Device) : Prop :=
  ∀ c, queryErr nvml k device c = None.

(** ** Vocabulary of the proofs *)

(** The names of the catalog. *)
Definition metricNames : list string :=
  ["power_watts"; "gpu_percent"; "memory_free"; "memory_total";
   "memory_used"; "memory_percent"; "temperature_fahrenheit";
   "temperature_celsius"].

(** The metrics all vectors of [g] write when they are collected. *)
Definition collected (g : gmap string GaugeVec) : list Metric :=
  kv ← map_to_list g; vecCollect kv.2.

(** The state in which [Collect] calls [GetTelemetryFromNVML]: locked,
    reset, health gauge at 1. *)
Definition started (w : World) : World :=
  log (EvUpSet 1) (setUp 1 (resetGauges (log EvLock w)).2).

(** The state in which [Collect] returns when the telemetry ended in
    [w]: gauges collected, health gauge sent, unlocked. *)
Definition finished (w : World) : World :=
  log EvUnlock (sendUp (collectGauges w).2).2.

(** The states a loop iteration goes through. *)
Definition aborted (k : nat) (c : QueryClass) (what : string) (device : Device)
    (err : error) (w : World) : World :=
  log (EvUpSet 0)
    (setUp 0 (log (EvPrintf (failedToGet what device err))
                (log (EvQuery k c false) w))).

Definition wroteUtilization (k : nat) (device : Device) (r : Z * Z) (w : World)
  : World :=
  writeChild "memory_percent" (deviceLabelValues device) r.2
    (writeChild "gpu_percent" (deviceLabelValues device) r.1
       (log (EvQuery k Utilization true) w)).

Definition wroteTemperature (k : nat) (device : Device) (r : Z * Z) (w : World)
  : World :=
  writeChild "temperature_fahrenheit" (deviceLabelValues device) r.1
    (writeChild "temperature_celsius" (deviceLabelValues device) r.2
       (log (EvQuery k Temperature true) w)).

Definition wrotePowerUsage (k : nat) (device : Device) (r : Z) (w : World)
  : World :=
  writeChild "power_watts" (deviceLabelValues device) r
    (log (EvQuery k PowerUsage true) w).

Definition wroteMemoryInfo (k : nat) (device : Device) (r : NVMLMemory) (w : World)
  : World :=
  writeChild "memory_used" (deviceLabelValues device) (Used r)
    (writeChild "memory_total" (deviceLabelValues device) (Total r)
       (writeChild "memory_free" (deviceLabelValues device) (Free r)
          (log (EvQuery k MemoryInfo true) w))).

(** A device whose four queries are answered. *)
Definition visited (k : nat) (device : Device) (u t : Z * Z) (p : Z)
    (m : NVMLMemory) (w : World) : World :=
  wroteMemoryInfo k device m
    (wrotePowerUsage k device p
       (wroteTemperature k device t (wroteUtilization k device u w))).

(** The events of a loop iteration that goes well, for devices among
    [ds]: answered queries, and writes of a catalog metric under the
    label values of a device. *)
Definition okEvent (ds : list Device) (ev : Event) : Prop :=
  match ev with
  | EvQuery _ _ true => True
  | EvSet name lvs _ => name ∈ metricNames ∧ lvs ∈ deviceLabelValues <$> ds
  | _ => False
  end.

(** [w'] comes from [w] by answered queries and writes only. *)
Definition Quiet (ds : list Device) (w w' : World) : Prop :=
  Shaped w' ∧ upOf w' = upOf w ∧ devicesOf w' = devicesOf w
  ∧ sent w' = sent w
  ∧ (∃ oks, trace w' = trace w ++ oks ∧ Forall (okEvent ds) oks)
  ∧ (∀ name lvs, is_Some (entryOf w' name lvs) →
       is_Some (entryOf w name lvs) ∨ lvs ∈ deviceLabelValues <$> ds).

(** How a run of the loop ends: [Completed] after the last device, or
    [Aborted] in iteration [j] on the query of class [c]. *)
Inductive Ending :=
  | Completed
  | Aborted (j : nat) (c : QueryClass) (line : string).

Definition endingEvents (e : Ending) : list Event :=
  match e with
  | Completed => []
  | Aborted j c line => [EvQuery j c false; EvPrintf line; EvUpSet 0]
  end.

Definition endingUp (e : Ending) (before : Z) : Z :=
  match e with
  | Completed => before
  | Aborted _ _ _ => 0
  end.

(** [w'] is the state after a run of the loop from [w] over devices among
    [ds]: answered queries and writes, then the ending. *)
Definition Ran (ds : list Device) (w w' : World) (e : Ending) : Prop :=
  Shaped w' ∧ devicesOf w' = devicesOf w ∧ sent w' = sent w
  ∧ upOf w' = endingUp e (upOf w)
  ∧ (∃ oks, trace w' = trace w ++ oks ++ endingEvents e
            ∧ Forall (okEvent ds) oks)
  ∧ (∀ name lvs, is_Some (entryOf w' name lvs) →
       is_Some (entryOf w name lvs) ∨ lvs ∈ deviceLabelValues <$> ds).

(** Where a run over [ds], started at iteration [k], ends: after the
    last device when no query fails, and else at the first query that
    fails. *)
Definition endsWhere (nvml : NVML) (k : nat) (ds : list Device) (e : Ending)
  : Prop :=
  match e with
  | Completed =>
      ∀ n d, ds !! n = Some d → firstFailure nvml (k + n) d = None
  | Aborted j c _ =>
      ∃ n d, j = (k + n)%nat ∧ ds !! n = Some d
             ∧ firstFailure nvml j d = Some c
             ∧ ∀ n' d', (n' < n)%nat → ds !! n' = Some d' →
                 firstFailure nvml (k + n') d' = None
  end.

(** The worlds of a running exporter: the one [NewExporter] builds, and
    the one a cycle leaves. *)
Inductive reachable : World → Prop :=
  | reachable_new ds :
      reachable (mkWorld (NewExporter (ds, None)).1 [] [])
  | reachable_Collect nvml w :
      reachable w → reachable (Collect nvml w).2.

(** The world after one cycle per driver state of [nvmls], in order. *)
Definition cycles (nvmls : list NVML) (w : World) : World :=
  foldl (λ w nvml, (Collect nvml w).2) w nvmls.

(** The driver queries of a trace, and the lines printed in it. *)
Definition queriesOf (tr : list Event) : list (nat * QueryClass * bool) :=
  omap (λ ev, match ev with EvQuery k c ok => Some (k, c, ok) | _ => None end)
       tr.

Definition printedOf (tr : list Event) : list string :=
  omap (λ ev, match ev with EvPrintf line => Some line | _ => None end) tr.

(** The query classes in the order of the loop body, and those before
    a class. *)
Definition allClasses : list QueryClass :=
  [Utilization; Temperature; PowerUsage; MemoryInfo].

Definition classesBefore (c : QueryClass) : list QueryClass :=
  match c with
  | Utilization => []
  | Temperature => [Utilization]
  | PowerUsage => [Utilization; Temperature]
  | MemoryInfo => [Utilization; Temperature; PowerUsage]
  end.

(** What the printed line calls a query class (lines 120, 128, 136,
    143). *)
Definition className (c : QueryClass) : string :=
  match c with
  | Utilization => "Device Utilization"
  | Temperature => "Device Temperature"
  | PowerUsage => "Device Power Usage"
  | MemoryInfo => "Memory Info"
  end.

(** The events the device loop can log, on whatever gauges: queries,
    printed lines, writes, and the health gauge set to 0. *)
Definition loopEvent (ev : Event) : Prop :=
  match ev with
  | EvQuery _ _ _ | EvPrintf _ | EvSet _ _ _ | EvUpSet 0 => True
  | _ => False
  end.

(** The action [m] only appends events that satisfy [P] to the trace,
    and writes nothing to the channel. *)
Definition Emits (P : Event → Prop) {A} (m : M A) : Prop :=
  ∀ w, ∃ evs,
    trace (m w).2 = trace w ++ evs ∧ Forall P evs ∧ sent (m w).2 = sent w.

(** ** Example inputs *)

Definition gpu0 : Device := mkDevice 0 "GPU-5a1c" "Tesla K80".
Definition gpu1 : Device := mkDevice 1 "GPU-77e2" "Tesla K80".

(** A driver that answers every query. *)
Definition healthy : NVML :=
  mkNVML (λ _ _, inr (45, 60)) (λ _ _, inr (167, 75)) (λ _ _, inr 120)
         (λ _ _, inr (mkNVMLMemory 1000000 4000000 3000000)).

(** A driver whose query of class [c] fails from iteration 1 on. *)
Definition failing (c : QueryClass) : NVML :=
  let bad {A} (c' : QueryClass) (k : nat) (r : A) : error + A :=
    if decide (c' = c ∧ k ≠ 0%nat) then inl "GPU is lost" else inr r in
  mkNVML (λ k _, bad Utilization k (10, 20))
         (λ k _, bad Temperature k (150, 66))
         (λ k _, bad PowerUsage k 80)
         (λ k _, bad MemoryInfo k (mkNVMLMemory 500 4000000 3999500)).

(** The exporter after [NewExporter], and after one healthy cycle. *)
Definition fresh (ds : list Device) : World :=
  mkWorld (NewExporter (ds, None)).1 [] [].

Definition scraped (ds : list Device) : World := (Collect healthy (fresh ds)).2.

(** The exporter of [scraped [gpu0; gpu1]] with no device left. *)
Definition unplugged : World :=
  mkWorld (mkExporter 1 (gauges (exporter (scraped [gpu0; gpu1]))) []) [] [].

(** Device 0 answers as in the scenario; device 1 answers its
    utilization query and fails its temperature query. *)
Definition scenarioDriver : NVML :=
  mkNVML
    (λ k _, match k with O => inr (45, 60) | _ => inr (10, 20) end)
    (λ k _, match k with O => inr (167, 75) | _ => inl "GPU is lost" end)
    (λ _ _, inr 120)
    (λ _ _, inr (mkNVMLMemory 1000000 4000000 3000000)).

(** The scenario's expectation, word for word: the series of device 0,
    [up = 0], and no series with device 1's index as [device_id]. *)
Definition scenarioAsStated (w : World) : Prop :=
  entryOf w "gpu_percent" (deviceLabelValues gpu0) = Some 45
  ∧ entryOf w "memory_percent" (deviceLabelValues gpu0) = Some 60
  ∧ is_Some (entryOf w "power_watts" (deviceLabelValues gpu0))
  ∧ is_Some (entryOf w "memory_free" (deviceLabelValues gpu0))
  ∧ is_Some (entryOf w "memory_total" (deviceLabelValues gpu0))
  ∧ is_Some (entryOf w "memory_used" (deviceLabelValues gpu0))
  ∧ upOf w = 0
  ∧ ∀ name uuid dname, entryOf w name [Itoa 1; uuid; dname] = None.

(** Two scrapes of the exporter of [gpu0] and [gpu1], one after the
    other: during the first the utilization query of [gpu1] fails,
    during the second the driver answers every query. *)
Definition scrapeA : Outcome unit * World :=
  Collect (failing Utilization) (fresh [gpu0; gpu1]).

Definition scrapeB : Outcome unit * World := Collect healthy scrapeA.2.

(** ** The catalog *)

Lemma catalog_lookup name info :
  gaugeMetrics !! name = Some info →
  name ∈ metricNames ∧ labels info = deviceLabels.
Proof.
  intros H. apply elem_of_list_to_map_2 in H.
  repeat (apply elem_of_cons in H as [H|H];
          [inversion H; subst; split; [set_solver | reflexivity] | ]).
  by apply elem_of_nil in H.
Qed.

Lemma catalog_names name :
  name ∈ metricNames ↔ is_Some (gaugeMetrics !! name).
Proof.
  split.
  - intros H. unfold metricNames in H.
    repeat (apply elem_of_cons in H as [->|H]; [by eexists | ]).
    by apply elem_of_nil in H.
  - intros [info H]. by apply catalog_lookup in H as [? _].
Qed.

Lemma NewExporter_gauges_lookup devs name :
  gauges (NewExporter (devs, None)).1 !! name
  = NewGaugeVec name <$> gaugeMetrics !! name.
Proof.
  cbn [NewExporter fst snd gauges]. rewrite map_lookup_imap.
  by destruct (gaugeMetrics !! name).
Qed.

(** ** Shape *)

Lemma shaped_lookup g name :
  shaped g → name ∈ metricNames →
  ∃ vec, g !! name = Some vec
         ∧ fqName vec = BuildFQName DefaultNamespace name
         ∧ variableLabels vec = deviceLabels.
Proof.
  intros Hs Hn. apply catalog_names in Hn as [info Hi].
  pose proof (Hs name) as H. rewrite Hi in H.
  destruct (g !! name) as [vec|] eqn:E; [|done].
  exists vec. split; [done|]. simpl in H. injection H as Hfq Hvl.
  apply catalog_lookup in Hi as [_ Hl]. split; congruence.
Qed.

Lemma shaped_lookup_None g name :
  shaped g → name ∉ metricNames → g !! name = None.
Proof.
  intros Hs Hn. pose proof (Hs name) as H.
  destruct (gaugeMetrics !! name) eqn:E.
  - exfalso. apply Hn, catalog_names. by eexists.
  - by destruct (g !! name).
Qed.

Lemma shaped_alter g lvs v name :
  shaped g → shaped (alter (SetChild lvs v) name g).
Proof.
  intros Hs n. rewrite <- (Hs n), lookup_alter.
  case_decide; [subst|done]. by destruct (g !! n).
Qed.

Lemma shaped_fmap_Reset g : shaped g → shaped (Reset <$> g).
Proof.
  intros Hs n. rewrite <- (Hs n), lookup_fmap. by destruct (g !! n).
Qed.

Lemma shaped_NewExporter devs : shaped (gauges (NewExporter (devs, None)).1).
Proof.
  intros n. rewrite NewExporter_gauges_lookup.
  by destruct (gaugeMetrics !! n).
Qed.

(** A closed registry is checked for its shape by computation. *)
Lemma shaped_compute g :
  Reset <$> g = gauges (NewExporter ([], None)).1 → shaped g.
Proof.
  intros H n. by rewrite <- lookup_fmap, H, NewExporter_gauges_lookup.
Qed.

(** ** Entries *)

Lemma entry_alter g name lvs v name' lvs' :
  is_Some (g !! name) →
  entry (alter (SetChild lvs v) name g) name' lvs'
  = if decide (name = name' ∧ lvs = lvs') then Some v else entry g name' lvs'.
Proof.
  intros [vec Hv]. unfold entry. rewrite lookup_alter.
  destruct (decide (name = name')) as [<-|Hn].
  - rewrite Hv. simpl. case_decide as H.
    + destruct H as [_ <-]. by rewrite lookup_insert_eq.
    + rewrite lookup_insert_ne; [done|]. intros <-. by apply H.
  - case_decide as H; [by destruct H|done].
Qed.

Lemma entry_fmap_Reset g name lvs : entry (Reset <$> g) name lvs = None.
Proof.
  unfold entry. rewrite lookup_fmap. by destruct (g !! name).
Qed.

Lemma entry_not_catalog g name lvs :
  shaped g → name ∉ metricNames → entry g name lvs = None.
Proof.
  intros Hs Hn. unfold entry. by rewrite (shaped_lookup_None g name Hs Hn).
Qed.

(** ** Worlds *)

Lemma log_Shaped ev w : Shaped w → Shaped (log ev w).
Proof. done. Qed.
Lemma setUp_Shaped v w : Shaped w → Shaped (setUp v w).
Proof. done. Qed.
Lemma send_Shaped ms w : Shaped w → Shaped (send ms w).
Proof. done. Qed.

(** What each state change leaves alone. *)
Lemma log_frame ev w :
  upOf (log ev w) = upOf w ∧ devicesOf (log ev w) = devicesOf w
  ∧ sent (log ev w) = sent w ∧ trace (log ev w) = trace w ++ [ev]
  ∧ (∀ name lvs, entryOf (log ev w) name lvs = entryOf w name lvs).
Proof. done. Qed.

Lemma setUp_frame v w :
  upOf (setUp v w) = v ∧ devicesOf (setUp v w) = devicesOf w
  ∧ sent (setUp v w) = sent w ∧ trace (setUp v w) = trace w
  ∧ (∀ name lvs, entryOf (setUp v w) name lvs = entryOf w name lvs).
Proof. done. Qed.

Lemma send_frame ms w :
  upOf (send ms w) = upOf w ∧ devicesOf (send ms w) = devicesOf w
  ∧ sent (send ms w) = sent w ++ ms
  ∧ trace (send ms w) = trace w ++ (EvSend <$> ms)
  ∧ (∀ name lvs, entryOf (send ms w) name lvs = entryOf w name lvs).
Proof. done. Qed.

Lemma writeChild_frame name lvs v w :
  upOf (writeChild name lvs v w) = upOf w
  ∧ devicesOf (writeChild name lvs v w) = devicesOf w
  ∧ sent (writeChild name lvs v w) = sent w
  ∧ trace (writeChild name lvs v w) = trace w ++ [EvSet name lvs v]
  ∧ (Shaped w → Shaped (writeChild name lvs v w)).
Proof. repeat split. intros H. by apply shaped_alter. Qed.

Lemma entryOf_writeChild_ne n l v w name lvs :
  n ≠ name → entryOf (writeChild n l v w) name lvs = entryOf w name lvs.
Proof.
  intros Hn. unfold entryOf, entry. cbn [writeChild log setGauges exporter gauges].
  by rewrite lookup_alter_ne.
Qed.

Lemma entryOf_writeChild_eq n l v w lvs :
  Shaped w → n ∈ metricNames →
  entryOf (writeChild n l v w) n lvs
  = if decide (l = lvs) then Some v else entryOf w n lvs.
Proof.
  intros Hs Hn. unfold entryOf. cbn [writeChild log setGauges exporter gauges].
  destruct (shaped_lookup _ _ Hs Hn) as (vec & Hv & _).
  rewrite entry_alter by eauto.
  destruct (decide (l = lvs)) as [->|Hl].
  - by rewrite decide_True.
  - rewrite decide_False; [done|]. by intros [_ ?].
Qed.

Lemma entryOf_writeChild_other n l v w name lvs :
  l ≠ lvs → entryOf (writeChild n l v w) name lvs = entryOf w name lvs.
Proof.
  intros Hl. unfold entryOf, entry. cbn [writeChild log setGauges exporter gauges].
  rewrite lookup_alter. case_decide as Hn; [subst name|done].
  destruct (gauges (exporter w) !! n) as [vec|]; [|done].
  cbn. by rewrite lookup_insert_ne.
Qed.

Lemma entryOf_not_catalog w name lvs :
  Shaped w → name ∉ metricNames → entryOf w name lvs = None.
Proof. apply entry_not_catalog. Qed.

Lemma gaugeSet_run name device v w :
  Shaped w → name ∈ metricNames →
  gaugeSet name (deviceLabelValues device) v w
  = (Ret tt, writeChild name (deviceLabelValues device) v w).
Proof.
  intros Hs Hn. unfold gaugeSet.
  destruct (shaped_lookup _ _ Hs Hn) as (vec & -> & _ & ->).
  by rewrite decide_True.
Qed.

(** *** The two loops over the gauges *)

Lemma foldl_alter_Reset names : ∀ (g : gmap string GaugeVec) name,
  foldl (λ g n, alter Reset n g) g names !! name
  = if decide (name ∈ names) then Reset <$> g !! name else g !! name.
Proof.
  induction names as [|n names IH]; intros g name.
  - rewrite decide_False; [done|]. apply not_elem_of_nil.
  - cbn [foldl]. rewrite IH.
    destruct (decide (name = n)) as [->|Hn].
    + rewrite lookup_alter_eq, (decide_True (P := n ∈ n :: names)) by left.
      case_decide; by destruct (g !! n).
    + rewrite lookup_alter_ne by done.
      destruct (decide (name ∈ names)) as [Hin|Hin].
      * rewrite decide_True; [done|]. by right.
      * rewrite decide_False; [done|]. rewrite elem_of_cons. tauto.
Qed.

Lemma foldl_alter_Reset_all (g : gmap string GaugeVec) :
  foldl (λ g n, alter Reset n g) g (map_to_list g).*1 = Reset <$> g.
Proof.
  apply map_eq. intros name. rewrite foldl_alter_Reset, lookup_fmap.
  case_decide as Hin; [done|].
  destruct (g !! name) as [vec|] eqn:E; [|done].
  exfalso. apply Hin. apply list_elem_of_fmap. exists (name, vec).
  split; [done|]. by apply elem_of_map_to_list.
Qed.

Lemma foldl_vecReset names : ∀ w,
  foldl vecReset w names
  = mkWorld (mkExporter (upOf w)
               (foldl (λ g n, alter Reset n g) (gauges (exporter w)) names)
               (devicesOf w))
            (sent w) (trace w ++ (EvReset <$> names)).
Proof.
  induction names as [|n names IH]; intros [[u g ds] ms tr].
  - cbn. by rewrite app_nil_r.
  - cbn [foldl]. rewrite IH. cbn. by rewrite <- app_assoc.
Qed.

Lemma resetGauges_run w :
  resetGauges w
  = (Ret tt,
     mkWorld (mkExporter (upOf w) (Reset <$> gauges (exporter w)) (devicesOf w))
             (sent w)
             (trace w ++ (EvReset <$> (map_to_list (gauges (exporter w))).*1))).
Proof.
  unfold resetGauges. by rewrite foldl_vecReset, foldl_alter_Reset_all.
Qed.

Lemma foldl_send (l : list (string * GaugeVec)) : ∀ w,
  foldl (λ w' kv, send (vecCollect kv.2) w') w l
  = send (kv ← l; vecCollect kv.2) w.
Proof.
  induction l as [|kv l IH]; intros [e ms tr].
  - unfold send. cbn. by rewrite !app_nil_r.
  - cbn [foldl]. rewrite IH. unfold send. cbn.
    by rewrite fmap_app, !app_assoc.
Qed.

Lemma collectGauges_run w :
  collectGauges w = (Ret tt, send (collected (gauges (exporter w))) w).
Proof. unfold collectGauges. by rewrite foldl_send. Qed.

(** *** The start and the end of a cycle *)

Lemma started_spec w :
  upOf (started w) = 1 ∧ devicesOf (started w) = devicesOf w
  ∧ sent (started w) = sent w
  ∧ trace (started w)
    = trace w ++ [EvLock]
        ++ (EvReset <$> (map_to_list (gauges (exporter w))).*1) ++ [EvUpSet 1]
  ∧ gauges (exporter (started w)) = Reset <$> gauges (exporter w).
Proof.
  unfold started. rewrite resetGauges_run. cbn.
  do 3 (split; [done|]). split; [|done]. by rewrite <- !app_assoc.
Qed.

Lemma finished_spec w :
  upOf (finished w) = upOf w ∧ devicesOf (finished w) = devicesOf w
  ∧ sent (finished w)
    = sent w ++ collected (gauges (exporter w)) ++ [upMetric (upOf w)]
  ∧ trace (finished w)
    = trace w ++ (EvSend <$> collected (gauges (exporter w)))
        ++ [EvSend (upMetric (upOf w)); EvUnlock]
  ∧ gauges (exporter (finished w)) = gauges (exporter w).
Proof.
  unfold finished. rewrite collectGauges_run. cbn.
  do 2 (split; [done|]). split; [by rewrite <- !app_assoc|].
  split; [|done]. by rewrite <- !app_assoc.
Qed.

(** [Collect] around the call of [GetTelemetryFromNVML]; on a panic the
    collect loop is skipped and the two deferred calls still run. *)
Lemma Collect_unfold nvml w :
  Collect nvml w
  = match GetTelemetryFromNVML nvml (started w) with
    | (Ret _, wT) => (Ret tt, finished wT)
    | (Panic msg, wT) => (Panic msg, log EvUnlock (sendUp wT).2)
    end.
Proof.
  unfold Collect, upSet, started, finished.
  unfold bind, defer, modify.
  cbn [resetGauges collectGauges sendUp fst snd].
  by destruct (GetTelemetryFromNVML nvml _) as [[[]|msg] wT].
Qed.

(** From here on the state changes are used through the lemmas above. *)
#[global] Opaque log setUp send writeChild setGauges.

Lemma upOf_log ev w : upOf (log ev w) = upOf w.
Proof. apply log_frame. Qed.
Lemma devicesOf_log ev w : devicesOf (log ev w) = devicesOf w.
Proof. apply log_frame. Qed.
Lemma sent_log ev w : sent (log ev w) = sent w.
Proof. apply log_frame. Qed.
Lemma trace_log ev w : trace (log ev w) = trace w ++ [ev].
Proof. apply log_frame. Qed.
Lemma entryOf_log ev w name lvs : entryOf (log ev w) name lvs = entryOf w name lvs.
Proof. apply log_frame. Qed.
Lemma Shaped_log ev w : Shaped w → Shaped (log ev w).
Proof. apply log_Shaped. Qed.

Lemma upOf_setUp v w : upOf (setUp v w) = v.
Proof. apply setUp_frame. Qed.
Lemma devicesOf_setUp v w : devicesOf (setUp v w) = devicesOf w.
Proof. apply setUp_frame. Qed.
Lemma sent_setUp v w : sent (setUp v w) = sent w.
Proof. apply setUp_frame. Qed.
Lemma trace_setUp v w : trace (setUp v w) = trace w.
Proof. apply setUp_frame. Qed.
Lemma entryOf_setUp v w name lvs : entryOf (setUp v w) name lvs = entryOf w name lvs.
Proof. apply setUp_frame. Qed.
Lemma Shaped_setUp v w : Shaped w → Shaped (setUp v w).
Proof. apply setUp_Shaped. Qed.

Lemma upOf_send ms w : upOf (send ms w) = upOf w.
Proof. apply send_frame. Qed.
Lemma devicesOf_send ms w : devicesOf (send ms w) = devicesOf w.
Proof. apply send_frame. Qed.
Lemma sent_send ms w : sent (send ms w) = sent w ++ ms.
Proof. apply send_frame. Qed.
Lemma trace_send ms w : trace (send ms w) = trace w ++ (EvSend <$> ms).
Proof. apply send_frame. Qed.
Lemma entryOf_send ms w name lvs : entryOf (send ms w) name lvs = entryOf w name lvs.
Proof. apply send_frame. Qed.
Lemma Shaped_send ms w : Shaped w → Shaped (send ms w).
Proof. apply send_Shaped. Qed.

Lemma upOf_writeChild name lvs v w : upOf (writeChild name lvs v w) = upOf w.
Proof. apply writeChild_frame. Qed.
Lemma devicesOf_writeChild name lvs v w :
  devicesOf (writeChild name lvs v w) = devicesOf w.
Proof. apply writeChild_frame. Qed.
Lemma sent_writeChild name lvs v w : sent (writeChild name lvs v w) = sent w.
Proof. apply writeChild_frame. Qed.
Lemma trace_writeChild name lvs v w :
  trace (writeChild name lvs v w) = trace w ++ [EvSet name lvs v].
Proof. apply writeChild_frame. Qed.
Lemma Shaped_writeChild name lvs v w : Shaped w → Shaped (writeChild name lvs v w).
Proof. apply writeChild_frame. Qed.

Create Rewrite HintDb world.
#[export] Hint Rewrite
  upOf_log upOf_setUp upOf_send upOf_writeChild
  devicesOf_log devicesOf_setUp devicesOf_send devicesOf_writeChild
  sent_log sent_setUp sent_send sent_writeChild
  trace_log trace_setUp trace_send trace_writeChild
  entryOf_log entryOf_setUp entryOf_send : world.

Lemma metricNames_elem name :
  bool_decide (name ∈ metricNames) = true → name ∈ metricNames.
Proof. intros H. by apply bool_decide_eq_true in H. Qed.

Lemma string_ne (a b : string) : bool_decide (a = b) = false → a ≠ b.
Proof. apply bool_decide_eq_false_1. Qed.

Ltac in_catalog := apply metricNames_elem; vm_compute; reflexivity.
Ltac names_differ := apply string_ne; vm_compute; reflexivity.

Ltac solve_Shaped :=
  repeat first
    [ assumption
    | lazymatch goal with
      | |- Shaped (log _ _) => apply Shaped_log
      | |- Shaped (setUp _ _) => apply Shaped_setUp
      | |- Shaped (send _ _) => apply Shaped_send
      | |- Shaped (writeChild _ _ _ _) => apply Shaped_writeChild
      end ].

Ltac entries :=
  repeat first
    [ rewrite entryOf_log
    | rewrite entryOf_setUp
    | rewrite entryOf_writeChild_ne by names_differ
    | rewrite entryOf_writeChild_eq; [ | solve_Shaped | in_catalog ] ].

Lemma metricNames_cases name :
  name ∈ metricNames →
  name = "power_watts" ∨ name = "gpu_percent" ∨ name = "memory_free"
  ∨ name = "memory_total" ∨ name = "memory_used" ∨ name = "memory_percent"
  ∨ name = "temperature_fahrenheit" ∨ name = "temperature_celsius".
Proof.
  unfold metricNames. rewrite !elem_of_cons, elem_of_nil. tauto.
Qed.

(** ** One iteration of the device loop *)

Ltac run_gaugeSet :=
  rewrite gaugeSet_run; [ | solve_Shaped | in_catalog ];
  cbv beta iota.

(** On shaped gauges no write panics, and one iteration of the device
    loop is the following case distinction. *)
Lemma telemetryLoop_cons nvml k device rest w :
  Shaped w →
  telemetryLoop nvml k (device :: rest) w =
    match GetUtilization nvml k device with
    | inl err =>
        (Ret tt, aborted k Utilization "Device Utilization" device err w)
    | inr u =>
        let w1 := wroteUtilization k device u w in
        match GetTemperature nvml k device with
        | inl err =>
            (Ret tt, aborted k Temperature "Device Temperature" device err w1)
        | inr t =>
            let w2 := wroteTemperature k device t w1 in
            match GetPowerUsage nvml k device with
            | inl err =>
                (Ret tt, aborted k PowerUsage "Device Power Usage" device err w2)
            | inr p =>
                let w3 := wrotePowerUsage k device p w2 in
                match GetMemoryInfo nvml k device with
                | inl err =>
                    (Ret tt, aborted k MemoryInfo "Memory Info" device err w3)
                | inr m =>
                    telemetryLoop nvml (S k) rest (wroteMemoryInfo k device m w3)
                end
            end
        end
    end.
Proof.
  intros Hs. cbn [telemetryLoop].
  cbv beta iota zeta delta [bind query Printf upSet modify ret].
  destruct (GetUtilization nvml k device) as [err|[gp mp]]; [done|].
  do 2 run_gaugeSet.
  destruct (GetTemperature nvml k device) as [err|[tf tc]]; [done|].
  do 2 run_gaugeSet.
  destruct (GetPowerUsage nvml k device) as [err|p]; [done|].
  run_gaugeSet.
  destruct (GetMemoryInfo nvml k device) as [err|m]; [done|].
  do 3 run_gaugeSet.
  done.
Qed.

Lemma Quiet_refl ds w : Shaped w → Quiet ds w w.
Proof.
  intros H. do 4 (split; [done|]). split; [|by left].
  exists []. by rewrite app_nil_r.
Qed.

Lemma Quiet_trans ds w1 w2 w3 : Quiet ds w1 w2 → Quiet ds w2 w3 → Quiet ds w1 w3.
Proof.
  intros (_ & Hu & Hd & Hs & (oks & Ht & Hok) & He)
         (HS & Hu' & Hd' & Hs' & (oks' & Ht' & Hok') & He').
  do 4 (split; [congruence|]). split.
  - exists (oks ++ oks'). split.
    + by rewrite Ht', Ht, app_assoc.
    + by apply Forall_app.
  - intros name lvs H. destruct (He' _ _ H) as [H'|H']; [|by right].
    by apply He.
Qed.

Lemma Quiet_query ds w w1 k c :
  Quiet ds w w1 → Quiet ds w (log (EvQuery k c true) w1).
Proof.
  intros Q. eapply Quiet_trans; [exact Q|].
  destruct Q as [HS _].
  split; [solve_Shaped|]. do 3 (split; [by autorewrite with world|]).
  split.
  - exists [EvQuery k c true].
    split; [by autorewrite with world|]. constructor; [exact I|constructor].
  - intros name lvs. rewrite entryOf_log. by left.
Qed.

Lemma Quiet_writeChild ds w w1 name device v :
  device ∈ ds → name ∈ metricNames →
  Quiet ds w w1 →
  Quiet ds w (writeChild name (deviceLabelValues device) v w1).
Proof.
  intros Hd Hn Q. eapply Quiet_trans; [exact Q|].
  destruct Q as [HS _].
  split; [solve_Shaped|]. do 3 (split; [by autorewrite with world|]).
  split.
  - exists [EvSet name (deviceLabelValues device) v].
    split; [by autorewrite with world|].
    constructor; [|constructor].
    split; [done|]. by apply list_elem_of_fmap_2.
  - intros n lvs H.
    destruct (decide (deviceLabelValues device = lvs)) as [<-|Hne].
    + right. by apply list_elem_of_fmap_2.
    + left. by rewrite entryOf_writeChild_other in H.
Qed.

Ltac quiet_stage :=
  repeat (apply Quiet_writeChild; [assumption | in_catalog | ]);
  apply Quiet_query; assumption.

Lemma Quiet_wroteUtilization ds k device r w w1 :
  device ∈ ds → Quiet ds w w1 → Quiet ds w (wroteUtilization k device r w1).
Proof. intros ??. unfold wroteUtilization. quiet_stage. Qed.

Lemma Quiet_wroteTemperature ds k device r w w1 :
  device ∈ ds → Quiet ds w w1 → Quiet ds w (wroteTemperature k device r w1).
Proof. intros ??. unfold wroteTemperature. quiet_stage. Qed.

Lemma Quiet_wrotePowerUsage ds k device r w w1 :
  device ∈ ds → Quiet ds w w1 → Quiet ds w (wrotePowerUsage k device r w1).
Proof. intros ??. unfold wrotePowerUsage. quiet_stage. Qed.

Lemma Quiet_wroteMemoryInfo ds k device r w w1 :
  device ∈ ds → Quiet ds w w1 → Quiet ds w (wroteMemoryInfo k device r w1).
Proof. intros ??. unfold wroteMemoryInfo. quiet_stage. Qed.

Lemma Quiet_visited ds k device u t p m w w1 :
  device ∈ ds → Quiet ds w w1 → Quiet ds w (visited k device u t p m w1).
Proof.
  intros Hd Q. unfold visited.
  by apply Quiet_wroteMemoryInfo, Quiet_wrotePowerUsage,
    Quiet_wroteTemperature, Quiet_wroteUtilization.
Qed.

(** An abort after [w]: the query fails, the failure is printed, the
    health gauge goes to 0 and nothing else changes. *)
Lemma aborted_spec k c what device err w :
  Shaped w →
  let w' := aborted k c what device err w in
  Shaped w' ∧ upOf w' = 0 ∧ devicesOf w' = devicesOf w ∧ sent w' = sent w
  ∧ trace w' = trace w ++ [EvQuery k c false;
                           EvPrintf (failedToGet what device err); EvUpSet 0]
  ∧ ∀ name lvs, entryOf w' name lvs = entryOf w name lvs.
Proof.
  intros H. unfold aborted. cbv zeta.
  split; [solve_Shaped|].
  do 3 (split; [by autorewrite with world|]).
  split.
  - autorewrite with world. by rewrite <- !app_assoc.
  - intros. by autorewrite with world.
Qed.

Lemma entryOf_visited nvml k device u t p m w name lvs :
  Shaped w →
  GetUtilization nvml k device = inr u →
  GetTemperature nvml k device = inr t →
  GetPowerUsage nvml k device = inr p →
  GetMemoryInfo nvml k device = inr m →
  name ∈ metricNames →
  entryOf (visited k device u t p m w) name lvs
  = if decide (deviceLabelValues device = lvs) then reading nvml k device name
    else entryOf w name lvs.
Proof.
  intros Hs HU HT HP HM Hn.
  unfold visited, wroteMemoryInfo, wrotePowerUsage, wroteTemperature,
    wroteUtilization, reading.
  rewrite HU, HT, HP, HM.
  apply metricNames_cases in Hn.
  destruct Hn as [->|[->|[->|[->|[->|[->|[->| ->]]]]]]];
    entries; by case_decide.
Qed.

Lemma allOk_answers nvml k device :
  allOk nvml k device →
  ∃ u t p m, GetUtilization nvml k device = inr u
             ∧ GetTemperature nvml k device = inr t
             ∧ GetPowerUsage nvml k device = inr p
             ∧ GetMemoryInfo nvml k device = inr m.
Proof.
  intros H.
  pose proof (H Utilization) as HU. pose proof (H Temperature) as HT.
  pose proof (H PowerUsage) as HP. pose proof (H MemoryInfo) as HM.
  unfold queryErr in *.
  destruct (GetUtilization nvml k device) as [|u]; [done|].
  destruct (GetTemperature nvml k device) as [|t]; [done|].
  destruct (GetPowerUsage nvml k device) as [|p]; [done|].
  destruct (GetMemoryInfo nvml k device) as [|m]; [done|].
  by exists u, t, p, m.
Qed.

Lemma reading_allOk nvml k device name :
  allOk nvml k device → name ∈ metricNames →
  is_Some (reading nvml k device name).
Proof.
  intros H Hn.
  destruct (allOk_answers _ _ _ H) as (u & t & p & m & HU & HT & HP & HM).
  unfold reading. rewrite HU, HT, HP, HM.
  apply metricNames_cases in Hn.
  destruct Hn as [->|[->|[->|[->|[->|[->|[->| ->]]]]]]]; by eexists.
Qed.

(** ** The device loop *)

Lemma Ran_completed ds w w1 : Quiet ds w w1 → Ran ds w w1 Completed.
Proof.
  intros (HS & Hu & Hd & Hs & (oks & Ht & Hok) & He).
  split; [done|]. do 3 (split; [done|]). split; [|done].
  exists oks. by rewrite app_nil_r.
Qed.

Lemma Ran_abort ds w w1 k c what device err :
  Quiet ds w w1 →
  Ran ds w (aborted k c what device err w1)
      (Aborted k c (failedToGet what device err)).
Proof.
  intros (HS & Hu & Hd & Hs & (oks & Ht & Hok) & He).
  destruct (aborted_spec k c what device err w1 HS)
    as (HS' & Hu' & Hd' & Hs' & Ht' & He').
  split; [done|]. do 2 (split; [congruence|]). split; [done|]. split.
  - exists oks. split; [|done]. by rewrite Ht', Ht, <- app_assoc.
  - intros name lvs. rewrite He'. apply He.
Qed.

Lemma Ran_after ds w w1 w' e : Quiet ds w w1 → Ran ds w1 w' e → Ran ds w w' e.
Proof.
  intros (_ & Hu & Hd & Hs & (oks & Ht & Hok) & He)
         (HS & Hd' & Hs' & Hu' & (oks' & Ht' & Hok') & He').
  split; [done|]. do 2 (split; [congruence|]).
  split; [by rewrite Hu', Hu|]. split.
  - exists (oks ++ oks'). split.
    + by rewrite Ht', Ht, <- !app_assoc.
    + by apply Forall_app.
  - intros name lvs H. destruct (He' _ _ H) as [H'|H']; [|by right].
    by apply He.
Qed.

Lemma endsWhere_here nvml k device rest c line :
  firstFailure nvml k device = Some c →
  endsWhere nvml k (device :: rest) (Aborted k c line).
Proof.
  intros H. exists 0%nat, device. split; [lia|]. do 2 (split; [done|]).
  intros n' d' Hn'. lia.
Qed.

Lemma endsWhere_cons nvml k device rest e :
  firstFailure nvml k device = None →
  endsWhere nvml (S k) rest e → endsWhere nvml k (device :: rest) e.
Proof.
  intros Hhere. destruct e as [|j c line]; cbn [endsWhere].
  - intros H [|n] d Hn.
    + injection Hn as <-. by rewrite Nat.add_0_r.
    + replace (k + S n)%nat with (S k + n)%nat by lia. by apply H.
  - intros (n & d & -> & Hn & Hff & Hprev). exists (S n), d.
    split; [lia|]. do 2 (split; [done|]).
    intros [|n'] d' Hlt Hn'.
    + injection Hn' as <-. by rewrite Nat.add_0_r.
    + replace (k + S n')%nat with (S k + n')%nat by lia.
      apply Hprev; [lia|done].
Qed.

(** The loop never panics on shaped gauges, and it ends in one of the
    two ways. *)
Lemma telemetryLoop_runs nvml all ds : ∀ k w,
  Shaped w → (∀ d, d ∈ ds → d ∈ all) →
  ∃ w' e, telemetryLoop nvml k ds w = (Ret tt, w') ∧ Ran all w w' e
          ∧ endsWhere nvml k ds e.
Proof.
  induction ds as [|device rest IH]; intros k w Hs Hsub.
  - exists w, Completed. split; [done|].
    split; [by apply Ran_completed, Quiet_refl|]. by intros n d.
  - rewrite telemetryLoop_cons by done.
    assert (device ∈ all) as Hd by (apply Hsub; left).
    pose proof (Quiet_refl all w Hs) as Q0.
    pose proof (endsWhere_here nvml k device rest) as Hhere.
    pose proof (endsWhere_cons nvml k device rest) as Hcons.
    unfold firstFailure in Hhere, Hcons.
    destruct (GetUtilization nvml k device) as [err|u].
    { eexists _, _. split; [done|]. split; [by apply Ran_abort|by apply Hhere]. }
    cbv zeta.
    pose proof (Quiet_wroteUtilization all k device u _ _ Hd Q0) as Q1.
    destruct (GetTemperature nvml k device) as [err|t].
    { eexists _, _. split; [done|]. split; [by apply Ran_abort|by apply Hhere]. }
    pose proof (Quiet_wroteTemperature all k device t _ _ Hd Q1) as Q2.
    destruct (GetPowerUsage nvml k device) as [err|p].
    { eexists _, _. split; [done|]. split; [by apply Ran_abort|by apply Hhere]. }
    pose proof (Quiet_wrotePowerUsage all k device p _ _ Hd Q2) as Q3.
    destruct (GetMemoryInfo nvml k device) as [err|m].
    { eexists _, _. split; [done|]. split; [by apply Ran_abort|by apply Hhere]. }
    pose proof (Quiet_wroteMemoryInfo all k device m _ _ Hd Q3) as Q4.
    destruct (IH (S k) _ (proj1 Q4)) as (w' & e & Hrun & Hran & Hends).
    { intros d Hin. apply Hsub. by right. }
    exists w', e. split; [done|]. split; [by eapply Ran_after|by apply Hcons].
Qed.

(** A prefix of fully answered devices: the loop goes on with the rest,
    from a state that holds the readings of the prefix. *)
Lemma telemetryLoop_prefix nvml pre : ∀ post k w,
  Shaped w →
  (∀ j d, pre !! j = Some d → allOk nvml (k + j) d) →
  ∃ w1,
    telemetryLoop nvml k (pre ++ post) w
    = telemetryLoop nvml (k + length pre) post w1
    ∧ Quiet pre w w1
    ∧ (∀ name lvs, lvs ∉ deviceLabelValues <$> pre →
         entryOf w1 name lvs = entryOf w name lvs)
    ∧ (∀ name lvs, name ∈ metricNames → lvs ∈ deviceLabelValues <$> pre →
         is_Some (entryOf w1 name lvs))
    ∧ (∀ name j d, name ∈ metricNames → pre !! j = Some d →
         deviceLabelValues d ∉ deviceLabelValues <$> drop (S j) pre →
         entryOf w1 name (deviceLabelValues d) = reading nvml (k + j) d name).
Proof.
  induction pre as [|device pre IH]; intros post k w Hs Hok.
  - exists w. rewrite Nat.add_0_r. split; [done|].
    split; [by apply Quiet_refl|]. split; [done|].
    split; [intros ?? _ H; by apply elem_of_nil in H|].
    intros ??? _ H. done.
  - assert (allOk nvml k device) as Hk.
    { rewrite <- (Nat.add_0_r k). by apply Hok. }
    destruct (allOk_answers _ _ _ Hk) as (u & t & p & m & HU & HT & HP & HM).
    assert (Quiet (device :: pre) w (visited k device u t p m w)) as Qv.
    { apply Quiet_visited; [left|by apply Quiet_refl]. }
    destruct (IH post (S k) (visited k device u t p m w) (proj1 Qv))
      as (w1 & Hrun & Q1 & Hframe & Hdom & Hval).
    { intros j d Hj. replace (S k + j)%nat with (k + S j)%nat by lia.
      by apply Hok. }
    assert (∀ name lvs, lvs ≠ deviceLabelValues device →
              entryOf (visited k device u t p m w) name lvs = entryOf w name lvs)
      as Hother.
    { intros name lvs Hne. destruct (decide (name ∈ metricNames)) as [Hn|Hn].
      - rewrite (entryOf_visited nvml) by done. by rewrite decide_False.
      - rewrite !entryOf_not_catalog by (done || apply Qv). done. }
    assert (∀ name, name ∈ metricNames →
              entryOf (visited k device u t p m w) name (deviceLabelValues device)
              = reading nvml k device name) as Hhere.
    { intros name Hn. rewrite (entryOf_visited nvml) by done.
      by rewrite decide_True. }
    exists w1. split.
    { cbn [app length].
      rewrite telemetryLoop_cons by done. rewrite HU, HT, HP, HM.
      cbv zeta. fold (visited k device u t p m w). rewrite Hrun.
      f_equal. lia. }
    split.
    { eapply Quiet_trans; [exact Qv|].
      destruct Q1 as (HS & Hu & Hd & Hse & (oks & Ht & Hoks) & He).
      do 4 (split; [done|]). split.
      - exists oks. split; [done|].
        eapply Forall_impl; [exact Hoks|].
        intros ev Hev. destruct ev; try exact Hev.
        destruct Hev as [? Hin]. split; [done|]. rewrite fmap_cons. by right.
      - intros name lvs H. destruct (He _ _ H) as [?|Hin]; [by left|].
        right. rewrite fmap_cons. by right. }
    rewrite fmap_cons. split; [|split].
    + intros name lvs Hnot. rewrite not_elem_of_cons in Hnot.
      destruct Hnot as [Hne Hnot]. rewrite Hframe by done. by apply Hother.
    + intros name lvs Hn Hin.
      destruct (decide (lvs ∈ deviceLabelValues <$> pre)) as [Hpre|Hpre].
      * by apply Hdom.
      * apply elem_of_cons in Hin as [->|Hin]; [|done].
        rewrite Hframe, Hhere by done. by apply reading_allOk.
    + intros name j d Hn Hj Hlast. destruct j as [|j].
      * injection Hj as <-. cbn [drop] in Hlast.
        rewrite Hframe, Hhere, Nat.add_0_r by done. done.
      * cbn [drop] in Hlast. cbn in Hj.
        replace (k + S j)%nat with (S k + j)%nat by lia. by apply Hval.
Qed.

(** ** The cycle *)

Lemma started_Shaped w : Shaped w → Shaped (started w).
Proof.
  intros H. unfold Shaped.
  destruct (started_spec w) as (_ & _ & _ & _ & ->).
  by apply shaped_fmap_Reset.
Qed.

Lemma entryOf_started w name lvs : entryOf (started w) name lvs = None.
Proof.
  unfold entryOf. destruct (started_spec w) as (_ & _ & _ & _ & ->).
  apply entry_fmap_Reset.
Qed.

Lemma entryOf_finished w name lvs :
  entryOf (finished w) name lvs = entryOf w name lvs.
Proof.
  unfold entryOf. by destruct (finished_spec w) as (_ & _ & _ & _ & ->).
Qed.

(** On shaped gauges [Collect] returns, and it is [started], a run of
    the device loop, and [finished]. *)
Lemma Collect_runs nvml w :
  Shaped w →
  ∃ wT e,
    Ran (devicesOf w) (started w) wT e
    ∧ endsWhere nvml 0 (devicesOf w) e
    ∧ Collect nvml w = (Ret tt, finished wT).
Proof.
  intros Hs.
  destruct (telemetryLoop_runs nvml (devicesOf w) (devicesOf w) 0 (started w))
    as (wT & e & Hrun & Hran & Hends); [by apply started_Shaped|done|].
  exists wT, e. split; [done|]. split; [done|].
  rewrite Collect_unfold. unfold GetTelemetryFromNVML.
  destruct (started_spec w) as (_ & Hd & _). unfold devicesOf in *.
  by rewrite Hd, Hrun.
Qed.

Lemma collected_elem g m :
  m ∈ collected g ↔
  ∃ name vec lvs v,
    g !! name = Some vec ∧ children vec !! lvs = Some v
    ∧ m = mkMetric (fqName vec) (variableLabels vec) lvs v.
Proof.
  unfold collected, vecCollect. rewrite list_elem_of_bind. split.
  - intros ([name vec] & Hm & Hkv). apply elem_of_map_to_list in Hkv.
    apply list_elem_of_fmap in Hm as ([lvs v] & -> & Hc).
    apply elem_of_map_to_list in Hc. by exists name, vec, lvs, v.
  - intros (name & vec & lvs & v & Hg & Hc & ->).
    exists (name, vec). split; [|by apply elem_of_map_to_list].
    apply list_elem_of_fmap. exists (lvs, v).
    split; [done|]. by apply elem_of_map_to_list.
Qed.

Lemma collected_Reset g : collected (Reset <$> g) = [].
Proof.
  apply elem_of_nil_inv. intros m Hm.
  apply collected_elem in Hm as (name & vec & lvs & v & Hg & Hc & _).
  rewrite lookup_fmap in Hg. destruct (g !! name); [|done].
  injection Hg as <-. cbn [Reset children] in Hc.
  by rewrite lookup_empty in Hc.
Qed.

Lemma elem_of_compute `{EqDecision A} (x : A) (l : list A) :
  bool_decide (x ∈ l) = true → x ∈ l.
Proof. intros H. by apply bool_decide_eq_true in H. Qed.

Lemma not_elem_of_compute `{EqDecision A} (x : A) (l : list A) :
  bool_decide (x ∈ l) = false → x ∉ l.
Proof. intros H. by apply bool_decide_eq_false in H. Qed.

Lemma Shaped_compute w :
  Reset <$> gauges (exporter w) = gauges (NewExporter ([], None)).1 → Shaped w.
Proof. apply shaped_compute. Qed.

(** ** The claims *)

(** C10.  With no device, every cycle returns with the health gauge at 1
    and no child in any metric vector, whatever the registry held
    before; the scrape exports the health gauge alone. *)
Theorem empty_device_list_cycle nvml w :
  devicesOf w = [] →
  (Collect nvml w).1 = Ret tt
  ∧ upOf (Collect nvml w).2 = 1
  ∧ (∀ name vec, gauges (exporter (Collect nvml w).2) !! name = Some vec →
       children vec = ∅)
  ∧ (∀ name lvs, entryOf (Collect nvml w).2 name lvs = None)
  ∧ sent (Collect nvml w).2 = sent w ++ [upMetric 1].
Proof.
  intros Hd. rewrite Collect_unfold. unfold GetTelemetryFromNVML.
  destruct (started_spec w) as (Hu & Hds & Hs & _ & Hg).
  unfold devicesOf in *. rewrite Hds, Hd. cbn [telemetryLoop ret fst snd].
  destruct (finished_spec (started w)) as (Hu' & _ & Hs' & _ & Hg').
  split; [done|]. split; [congruence|]. split; [|split].
  - intros name vec. rewrite Hg', Hg, lookup_fmap.
    destruct (gauges (exporter w) !! name); [|done]. by intros [= <-].
  - intros name lvs. by rewrite entryOf_finished, entryOf_started.
  - by rewrite Hs', Hg, collected_Reset, Hs, Hu.
Qed.

Lemma empty_device_list_cycle_witness :
  devicesOf unplugged = []
  ∧ entryOf unplugged "gpu_percent" (deviceLabelValues gpu1) = Some 45
  ∧ upOf (Collect healthy unplugged).2 = 1
  ∧ entryOf (Collect healthy unplugged).2 "gpu_percent" (deviceLabelValues gpu1)
    = None.
Proof.
  split; [reflexivity|]. split; [vm_compute; reflexivity|].
  destruct (empty_device_list_cycle healthy unplugged) as (_ & Hu & _ & He & _).
  - reflexivity.
  - split; [exact Hu|apply He].
Defined.

(** C7.  The reset loop of [Collect] is idempotent: it leaves every
    vector with its descriptor and without children, and a second run
    changes nothing; no child of the former registry is left after
    either run. *)
Theorem reset_idempotent w :
  gauges (exporter (resetGauges w).2) = Reset <$> gauges (exporter w)
  ∧ gauges (exporter (resetGauges (resetGauges w).2).2)
    = gauges (exporter (resetGauges w).2)
  ∧ (∀ name,
       fqName <$> gauges (exporter (resetGauges w).2) !! name
       = fqName <$> gauges (exporter w) !! name
       ∧ variableLabels <$> gauges (exporter (resetGauges w).2) !! name
         = variableLabels <$> gauges (exporter w) !! name)
  ∧ (∀ name lvs,
       entryOf (resetGauges w).2 name lvs = None
       ∧ entryOf (resetGauges (resetGauges w).2).2 name lvs = None).
Proof.
  rewrite !resetGauges_run. cbn [fst snd exporter gauges].
  split; [done|]. split; [|split].
  - apply map_eq. intros name. rewrite !lookup_fmap.
    by destruct (gauges (exporter w) !! name).
  - intros name. rewrite lookup_fmap.
    by destruct (gauges (exporter w) !! name).
  - intros name lvs. unfold entryOf. cbn [exporter gauges].
    by rewrite !entry_fmap_Reset.
Qed.

(** The cycle up to iteration [k], when the devices before it are fully
    answered. *)
Lemma cycle_prefix nvml w k :
  Shaped w → (k ≤ length (devicesOf w))%nat →
  (∀ j d, (j < k)%nat → devicesOf w !! j = Some d → allOk nvml j d) →
  ∃ w1,
    GetTelemetryFromNVML nvml (started w)
    = telemetryLoop nvml k (drop k (devicesOf w)) w1
    ∧ Shaped w1 ∧ upOf w1 = 1
    ∧ (∀ name lvs, lvs ∉ deviceLabelValues <$> take k (devicesOf w) →
         entryOf w1 name lvs = None)
    ∧ (∀ name lvs, name ∈ metricNames →
         lvs ∈ deviceLabelValues <$> take k (devicesOf w) →
         is_Some (entryOf w1 name lvs))
    ∧ (∀ name j d, name ∈ metricNames → (j < k)%nat →
         devicesOf w !! j = Some d →
         deviceLabelValues d
           ∉ deviceLabelValues <$> drop (S j) (take k (devicesOf w)) →
         entryOf w1 name (deviceLabelValues d) = reading nvml j d name).
Proof.
  intros Hs Hk Hok.
  destruct (telemetryLoop_prefix nvml (take k (devicesOf w))
              (drop k (devicesOf w)) 0 (started w))
    as (w1 & Hrun & Q & Hframe & Hdom & Hval).
  { by apply started_Shaped. }
  { intros j d Hj. apply lookup_take_Some in Hj as [Hj Hlt]. by apply Hok. }
  exists w1. rewrite take_drop, length_take_le in Hrun by done.
  destruct (started_spec w) as (Hu & Hd & _).
  split.
  { unfold GetTelemetryFromNVML. unfold devicesOf in *. by rewrite Hd. }
  destruct Q as (HS & Hu1 & _). split; [done|]. split; [by rewrite Hu1|].
  split; [|split].
  - intros name lvs Hnot. by rewrite Hframe, entryOf_started.
  - done.
  - intros name j d Hn Hj Hd' Hlast. apply (Hval name j d); [done| |done].
    by apply lookup_take_Some.
Qed.

(** C3.  When every query of every device is answered, [Collect]
    returns with the health gauge at 1, and each of the eight catalog
    metrics holds children exactly under the label values
    [(Itoa i, uuid, name)] of the enumerated devices: the child of a
    device holds its reading of this cycle, and when the devices have
    pairwise different label values the vector has one child per
    device. *)
Theorem all_queries_succeed nvml w :
  Shaped w →
  (∀ k d, devicesOf w !! k = Some d → allOk nvml k d) →
  (Collect nvml w).1 = Ret tt
  ∧ upOf (Collect nvml w).2 = 1
  ∧ size gaugeMetrics = 8%nat
  ∧ ∀ name, is_Some (gaugeMetrics !! name) →
      (∀ lvs, is_Some (entryOf (Collect nvml w).2 name lvs)
              ↔ ∃ d, d ∈ devicesOf w
                     ∧ lvs = [Itoa (i d); DeviceUUID d; DeviceName d])
      ∧ (∀ k d, devicesOf w !! k = Some d →
           deviceLabelValues d
             ∉ deviceLabelValues <$> drop (S k) (devicesOf w) →
           entryOf (Collect nvml w).2 name (deviceLabelValues d)
           = reading nvml k d name)
      ∧ (NoDup (deviceLabelValues <$> devicesOf w) →
           ∃ vec, gauges (exporter (Collect nvml w).2) !! name = Some vec
                  ∧ size (children vec) = length (devicesOf w)).
Proof.
  intros Hs Hok.
  destruct (cycle_prefix nvml w (length (devicesOf w)) Hs)
    as (w1 & Hrun & HS1 & Hu1 & Hnone & Hdom & Hval); [done|by eauto|].
  rewrite take_ge in Hnone, Hdom, Hval by done.
  rewrite drop_all in Hrun. cbn [telemetryLoop] in Hrun.
  rewrite Collect_unfold, Hrun. unfold ret. cbn [fst snd].
  destruct (finished_spec w1) as (Hu & _ & _ & _ & Hg).
  split; [done|]. split; [congruence|]. split; [reflexivity|].
  intros name Hn. apply catalog_names in Hn.
  assert (∀ lvs, is_Some (entryOf (finished w1) name lvs)
                 ↔ lvs ∈ deviceLabelValues <$> devicesOf w) as Hkeys.
  { intros lvs. rewrite entryOf_finished. split; [|by apply Hdom].
    intros Hsome.
    destruct (decide (lvs ∈ deviceLabelValues <$> devicesOf w)); [done|].
    rewrite Hnone in Hsome by done. by destruct Hsome. }
  split; [|split].
  - intros lvs. rewrite Hkeys, list_elem_of_fmap.
    split; intros (d & H1 & H2); by exists d.
  - intros k d Hk Hlast. rewrite entryOf_finished.
    apply Hval; [done|by eapply lookup_lt_Some|done..].
  - intros Hnd.
    destruct (shaped_lookup _ name HS1 Hn) as (vec & Hvec & _).
    exists vec. rewrite Hg. split; [done|].
    rewrite <- length_map_to_list, <- (length_fmap fst),
      <- (length_fmap deviceLabelValues).
    apply Permutation_length, NoDup_Permutation;
      [apply NoDup_fst_map_to_list|done|].
    intros lvs. rewrite <- Hkeys, entryOf_finished.
    unfold entryOf, entry. rewrite Hvec. cbn.
    rewrite list_elem_of_fmap. split.
    + intros ([l v] & -> & Hin). apply elem_of_map_to_list in Hin. by eexists.
    + intros [v Hv]. exists (lvs, v). split; [done|].
      by apply elem_of_map_to_list.
Qed.

Lemma all_queries_succeed_witness :
  upOf (Collect healthy (scraped [gpu1; gpu0])).2 = 1
  ∧ entryOf (Collect healthy (scraped [gpu1; gpu0])).2 "memory_used"
      ["0"; "GPU-5a1c"; "Tesla K80"] = Some 3000000.
Proof.
  destruct (all_queries_succeed healthy (scraped [gpu1; gpu0]))
    as (_ & Hu & _ & He).
  - apply Shaped_compute. vm_compute. reflexivity.
  - intros k d _ c. destruct c; reflexivity.
  - split; [exact Hu|].
    destruct (He "memory_used") as (_ & Hv & _); [by eexists|].
    apply (Hv 1%nat gpu0); [reflexivity|].
    apply not_elem_of_compute. reflexivity.
Defined.

(** C1.  When the utilization query of device [k] fails and the devices
    before it are fully answered, [Collect] returns with the health
    gauge at 0; every catalog metric holds children exactly under the
    label values of the devices [0..k-1], with their readings of this
    cycle, and none under the label values of a device at [k] or later
    (unless an earlier device carries the very same label values). *)
Theorem utilization_failure nvml w k dk err :
  Shaped w →
  devicesOf w !! k = Some dk →
  GetUtilization nvml k dk = inl err →
  (∀ j d, (j < k)%nat → devicesOf w !! j = Some d → allOk nvml j d) →
  (Collect nvml w).1 = Ret tt
  ∧ upOf (Collect nvml w).2 = 0
  ∧ ∀ name, is_Some (gaugeMetrics !! name) →
      (∀ lvs, is_Some (entryOf (Collect nvml w).2 name lvs)
              ↔ ∃ j d, (j < k)%nat ∧ devicesOf w !! j = Some d
                       ∧ lvs = deviceLabelValues d)
      ∧ (∀ j d, (j < k)%nat → devicesOf w !! j = Some d →
           deviceLabelValues d
             ∉ deviceLabelValues <$> drop (S j) (take k (devicesOf w)) →
           entryOf (Collect nvml w).2 name (deviceLabelValues d)
           = reading nvml j d name
           ∧ is_Some (reading nvml j d name))
      ∧ (∀ j d, (k ≤ j)%nat → devicesOf w !! j = Some d →
           deviceLabelValues d
             ∉ deviceLabelValues <$> take k (devicesOf w) →
           entryOf (Collect nvml w).2 name (deviceLabelValues d) = None).
Proof.
  intros Hs Hk HU Hok.
  pose proof (lookup_lt_Some _ _ _ Hk) as Hlt.
  destruct (cycle_prefix nvml w k Hs)
    as (w1 & Hrun & HS1 & Hu1 & Hnone & Hdom & Hval); [lia|done|].
  rewrite (drop_S _ _ _ Hk), telemetryLoop_cons, HU in Hrun by done.
  rewrite Collect_unfold, Hrun. cbn [fst snd].
  destruct (aborted_spec k Utilization "Device Utilization" dk err w1 HS1)
    as (_ & Hu0 & _ & _ & _ & He).
  destruct (finished_spec (aborted k Utilization "Device Utilization" dk err w1))
    as (Hu & _).
  split; [done|]. split; [congruence|].
  intros name Hn. apply catalog_names in Hn.
  assert (∀ lvs, entryOf (finished
            (aborted k Utilization "Device Utilization" dk err w1)) name lvs
          = entryOf w1 name lvs) as Heq.
  { intros lvs. by rewrite entryOf_finished, He. }
  split; [|split].
  - intros lvs. rewrite Heq. split.
    + intros Hsome.
      destruct (decide (lvs ∈ deviceLabelValues <$> take k (devicesOf w)))
        as [Hin|Hin].
      * apply list_elem_of_fmap in Hin as (d & -> & Hin).
        apply list_elem_of_lookup in Hin as [j Hj].
        apply lookup_take_Some in Hj as [Hj Hjk]. by exists j, d.
      * rewrite Hnone in Hsome by done. by destruct Hsome.
    + intros (j & d & Hjk & Hj & ->). apply Hdom; [done|].
      apply list_elem_of_fmap_2, (list_elem_of_lookup_2 _ j).
      by apply lookup_take_Some.
  - intros j d Hjk Hj Hlast. rewrite Heq. split; [by apply Hval|].
    apply reading_allOk; [by eapply Hok|done].
  - intros j d _ _ Hnot. rewrite Heq. by apply Hnone.
Qed.

Lemma utilization_failure_witness :
  upOf (Collect (failing Utilization) (fresh [gpu0; gpu1])).2 = 0
  ∧ entryOf (Collect (failing Utilization) (fresh [gpu0; gpu1])).2
      "power_watts" (deviceLabelValues gpu0) = Some 80
  ∧ entryOf (Collect (failing Utilization) (fresh [gpu0; gpu1])).2
      "power_watts" (deviceLabelValues gpu1) = None.
Proof.
  destruct (utilization_failure (failing Utilization) (fresh [gpu0; gpu1])
              1%nat gpu1 "GPU is lost") as (_ & Hu & He).
  - apply Shaped_compute. reflexivity.
  - reflexivity.
  - reflexivity.
  - intros j d Hj _ c. assert (j = 0%nat) as -> by lia. destruct c; reflexivity.
  - split; [exact Hu|].
    destruct (He "power_watts") as (_ & Hv & Hn); [by eexists|]. split.
    + apply (Hv 0%nat gpu0); [lia|reflexivity|].
      apply not_elem_of_compute. reflexivity.
    + apply (Hn 1%nat gpu1); [lia|reflexivity|].
      apply not_elem_of_compute. reflexivity.
Defined.

(** Rewriting the entry of [name] through writes of other metrics; [Hnot]
    says that [name] is none of the metrics written. *)
Ltac skip_writes Hnot :=
  repeat first
    [ rewrite entryOf_log
    | rewrite entryOf_writeChild_ne
        by (intros <-; apply Hnot, elem_of_compute; vm_compute; reflexivity) ].

Ltac written_cases Hin :=
  cbn [writtenBefore] in Hin;
  rewrite ?elem_of_cons, elem_of_nil in Hin;
  repeat (destruct Hin as [->|Hin]); [ .. | destruct Hin ].

(** C4.  When a query of device [k] is the first of the cycle to fail,
    the metrics the loop body has written for device [k] before that
    query hold its readings when [Collect] returns with the health
    gauge at 0: [gpu_percent] and [memory_percent] when the temperature
    query fails, also both temperatures when the power query fails, also
    [power_watts] when the memory query fails.  The other metrics have
    no child for the device (unless an earlier device carries the very
    same label values). *)
Theorem partial_device_kept nvml w k dk c :
  Shaped w →
  devicesOf w !! k = Some dk →
  (∀ j d, (j < k)%nat → devicesOf w !! j = Some d → allOk nvml j d) →
  firstFailure nvml k dk = Some c →
  (Collect nvml w).1 = Ret tt
  ∧ upOf (Collect nvml w).2 = 0
  ∧ ∀ name,
      (name ∈ writtenBefore c →
         entryOf (Collect nvml w).2 name (deviceLabelValues dk)
         = reading nvml k dk name
         ∧ is_Some (reading nvml k dk name))
      ∧ (name ∉ writtenBefore c →
         deviceLabelValues dk ∉ deviceLabelValues <$> take k (devicesOf w) →
         entryOf (Collect nvml w).2 name (deviceLabelValues dk) = None).
Proof.
  intros Hs Hk Hok Hff.
  pose proof (lookup_lt_Some _ _ _ Hk) as Hlt.
  destruct (cycle_prefix nvml w k Hs)
    as (w1 & Hrun & HS1 & Hu1 & Hnone & _); [lia|done|].
  rewrite (drop_S _ _ _ Hk), telemetryLoop_cons in Hrun by done.
  rewrite Collect_unfold, Hrun. clear Hrun.
  unfold firstFailure in Hff. unfold reading.
  pose proof (Quiet_refl [dk] w1 HS1) as Q0.
  assert (dk ∈ [dk]) as Hdk by left.
  destruct (GetUtilization nvml k dk) as [e|u].
  { injection Hff as <-. cbn [fst snd].
    destruct (aborted_spec k Utilization "Device Utilization" dk e w1 HS1)
      as (_ & Hu0 & _ & _ & _ & He).
    split; [done|].
    split; [by destruct (finished_spec (aborted k Utilization
                           "Device Utilization" dk e w1)) as [-> _]|].
    intros name. split; [intros Hin; by apply elem_of_nil in Hin|].
    intros _ Hpre. rewrite entryOf_finished, He. by apply Hnone. }
  pose proof (Quiet_wroteUtilization [dk] k dk u _ _ Hdk Q0) as Q1.
  cbv zeta.
  destruct (GetTemperature nvml k dk) as [e|t].
  { injection Hff as <-. cbn [fst snd].
    destruct (aborted_spec k Temperature "Device Temperature" dk e _ (proj1 Q1))
      as (_ & Hu0 & _ & _ & _ & He).
    split; [done|].
    split; [by destruct (finished_spec (aborted k Temperature
              "Device Temperature" dk e (wroteUtilization k dk u w1)))
              as [-> _]|].
    intros name. rewrite entryOf_finished, He. unfold wroteUtilization.
    split.
    - intros Hin. written_cases Hin;
        (split; [entries; by rewrite decide_True|by eexists]).
    - intros Hnot Hpre. skip_writes Hnot. by apply Hnone. }
  pose proof (Quiet_wroteTemperature [dk] k dk t _ _ Hdk Q1) as Q2.
  destruct (GetPowerUsage nvml k dk) as [e|p].
  { injection Hff as <-. cbn [fst snd].
    destruct (aborted_spec k PowerUsage "Device Power Usage" dk e _ (proj1 Q2))
      as (_ & Hu0 & _ & _ & _ & He).
    split; [done|].
    split; [by destruct (finished_spec (aborted k PowerUsage
              "Device Power Usage" dk e
              (wroteTemperature k dk t (wroteUtilization k dk u w1))))
              as [-> _]|].
    intros name. rewrite entryOf_finished, He.
    unfold wroteTemperature, wroteUtilization.
    split.
    - intros Hin. written_cases Hin;
        (split; [entries; by rewrite decide_True|by eexists]).
    - intros Hnot Hpre. skip_writes Hnot. by apply Hnone. }
  pose proof (Quiet_wrotePowerUsage [dk] k dk p _ _ Hdk Q2) as Q3.
  destruct (GetMemoryInfo nvml k dk) as [e|m]; [|done].
  injection Hff as <-. cbn [fst snd].
  destruct (aborted_spec k MemoryInfo "Memory Info" dk e _ (proj1 Q3))
    as (_ & Hu0 & _ & _ & _ & He).
  split; [done|].
  split; [by destruct (finished_spec (aborted k MemoryInfo "Memory Info" dk e
            (wrotePowerUsage k dk p
               (wroteTemperature k dk t (wroteUtilization k dk u w1)))))
            as [-> _]|].
  intros name. rewrite entryOf_finished, He.
  unfold wrotePowerUsage, wroteTemperature, wroteUtilization.
  split.
  - intros Hin. written_cases Hin;
      (split; [entries; by rewrite decide_True|by eexists]).
  - intros Hnot Hpre. skip_writes Hnot. by apply Hnone.
Qed.

Lemma partial_device_kept_witness :
  upOf (Collect (failing PowerUsage) (fresh [gpu0; gpu1])).2 = 0
  ∧ entryOf (Collect (failing PowerUsage) (fresh [gpu0; gpu1])).2
      "temperature_celsius" (deviceLabelValues gpu1) = Some 66
  ∧ entryOf (Collect (failing PowerUsage) (fresh [gpu0; gpu1])).2
      "power_watts" (deviceLabelValues gpu1) = None.
Proof.
  destruct (partial_device_kept (failing PowerUsage) (fresh [gpu0; gpu1])
              1%nat gpu1 PowerUsage) as (_ & Hu & He).
  - apply Shaped_compute. reflexivity.
  - reflexivity.
  - intros j d Hj _ c. assert (j = 0%nat) as -> by lia. destruct c; reflexivity.
  - reflexivity.
  - split; [exact Hu|]. split.
    + apply (He "temperature_celsius"). apply elem_of_compute. reflexivity.
    + apply (He "power_watts"); apply not_elem_of_compute; reflexivity.
Defined.

(** ** The two-device scenario *)

(** C2, as stated, fails: device 1 answered its utilization query before
    its temperature query failed, so [gpu_percent] and [memory_percent]
    hold a child for device 1. *)
Lemma scenario_as_stated_fails :
  ¬ scenarioAsStated (Collect scenarioDriver (fresh [gpu0; gpu1])).2.
Proof.
  intros (_ & _ & _ & _ & _ & _ & _ & Hno).
  specialize (Hno "gpu_percent" "GPU-77e2" "Tesla K80").
  vm_compute in Hno. discriminate Hno.
Qed.

(** C2, amended.  In the scenario [Collect] returns with the health
    gauge at 0, all eight series of device 0 hold its readings, and of
    device 1 exactly [gpu_percent] and [memory_percent] hold a child
    (its utilization reading); the other six metrics have none. *)
Theorem scenario_two_devices nvml w d0 d1 u1 err :
  Shaped w →
  devicesOf w = [d0; d1] →
  i d0 = 0 → i d1 = 1 →
  GetUtilization nvml 0 d0 = inr (45, 60) →
  GetTemperature nvml 0 d0 = inr (167, 75) →
  GetPowerUsage nvml 0 d0 = inr 120 →
  GetMemoryInfo nvml 0 d0 = inr (mkNVMLMemory 1000000 4000000 3000000) →
  GetUtilization nvml 1 d1 = inr u1 →
  GetTemperature nvml 1 d1 = inl err →
  (Collect nvml w).1 = Ret tt
  ∧ upOf (Collect nvml w).2 = 0
  ∧ entryOf (Collect nvml w).2 "gpu_percent" (deviceLabelValues d0) = Some 45
  ∧ entryOf (Collect nvml w).2 "memory_percent" (deviceLabelValues d0) = Some 60
  ∧ entryOf (Collect nvml w).2 "temperature_fahrenheit" (deviceLabelValues d0)
    = Some 167
  ∧ entryOf (Collect nvml w).2 "temperature_celsius" (deviceLabelValues d0)
    = Some 75
  ∧ entryOf (Collect nvml w).2 "power_watts" (deviceLabelValues d0) = Some 120
  ∧ entryOf (Collect nvml w).2 "memory_free" (deviceLabelValues d0)
    = Some 1000000
  ∧ entryOf (Collect nvml w).2 "memory_total" (deviceLabelValues d0)
    = Some 4000000
  ∧ entryOf (Collect nvml w).2 "memory_used" (deviceLabelValues d0)
    = Some 3000000
  ∧ entryOf (Collect nvml w).2 "gpu_percent" (deviceLabelValues d1) = Some u1.1
  ∧ entryOf (Collect nvml w).2 "memory_percent" (deviceLabelValues d1)
    = Some u1.2
  ∧ ∀ name, name ≠ "gpu_percent" → name ≠ "memory_percent" →
      entryOf (Collect nvml w).2 name (deviceLabelValues d1) = None.
Proof.
  intros Hs Hd Hi0 Hi1 HU0 HT0 HP0 HM0 HU1 HT1.
  assert (deviceLabelValues d1 ≠ deviceLabelValues d0) as Hne.
  { unfold deviceLabelValues. rewrite Hi0, Hi1. intros H.
    apply (f_equal head) in H. vm_compute in H. discriminate H. }
  destruct (cycle_prefix nvml w 1 Hs)
    as (w1 & Hrun & HS1 & Hu1 & Hnone & _ & Hval).
  { rewrite Hd. cbn. lia. }
  { intros j d Hj. assert (j = 0%nat) as -> by lia. rewrite Hd.
    intros [= <-] c. unfold queryErr.
    destruct c; by rewrite ?HU0, ?HT0, ?HP0, ?HM0. }
  rewrite Hd in Hrun, Hnone, Hval. cbn [drop take fmap list_fmap] in *.
  rewrite telemetryLoop_cons, HU1, HT1 in Hrun by done.
  rewrite Collect_unfold, Hrun. clear Hrun. cbv zeta. cbn [fst snd].
  assert (Shaped (wroteUtilization 1 d1 u1 w1)) as HSu.
  { eapply (Quiet_wroteUtilization [d1]); [left|by apply Quiet_refl]. }
  destruct (aborted_spec 1 Temperature "Device Temperature" d1 err _ HSu)
    as (_ & Hu0 & _ & _ & _ & He).
  split; [done|].
  split; [by destruct (finished_spec (aborted 1 Temperature
            "Device Temperature" d1 err (wroteUtilization 1 d1 u1 w1)))
            as [-> _]|].
  assert (∀ name v, name ∈ metricNames →
            reading nvml 0 d0 name = Some v →
            entryOf (finished (aborted 1 Temperature "Device Temperature" d1
                       err (wroteUtilization 1 d1 u1 w1)))
              name (deviceLabelValues d0) = Some v) as Hd0.
  { intros name v Hn Hr. rewrite entryOf_finished, He. unfold wroteUtilization.
    rewrite !entryOf_writeChild_other, entryOf_log by done.
    rewrite <- Hr. apply (Hval name 0%nat d0); [done|lia|done|].
    apply not_elem_of_nil. }
  unfold reading in Hd0. rewrite HU0, HT0, HP0, HM0 in Hd0.
  do 8 (split; [apply Hd0; [in_catalog|reflexivity]|]).
  rewrite !entryOf_finished, !He. unfold wroteUtilization.
  split; [entries; by rewrite decide_True|].
  split; [entries; by rewrite decide_True|].
  intros name H1 H2. rewrite entryOf_finished, He. unfold wroteUtilization.
  rewrite !entryOf_writeChild_ne, entryOf_log by congruence.
  apply Hnone. rewrite list_elem_of_singleton. done.
Qed.

Lemma scenario_two_devices_witness :
  upOf (Collect scenarioDriver (fresh [gpu0; gpu1])).2 = 0
  ∧ entryOf (Collect scenarioDriver (fresh [gpu0; gpu1])).2
      "gpu_percent" (deviceLabelValues gpu0) = Some 45
  ∧ entryOf (Collect scenarioDriver (fresh [gpu0; gpu1])).2
      "gpu_percent" (deviceLabelValues gpu1) = Some 10
  ∧ entryOf (Collect scenarioDriver (fresh [gpu0; gpu1])).2
      "power_watts" (deviceLabelValues gpu1) = None.
Proof.
  destruct (scenario_two_devices scenarioDriver (fresh [gpu0; gpu1])
              gpu0 gpu1 (10, 20) "GPU is lost")
    as (_ & Hu & Hg0 & _ & _ & _ & _ & _ & _ & _ & Hg1 & _ & Hno);
    try reflexivity.
  - apply Shaped_compute. reflexivity.
  - split; [exact Hu|]. split; [exact Hg0|]. split; [exact Hg1|].
    apply Hno; apply string_ne; reflexivity.
Defined.

(** ** The whole cycle *)

(** The trace, the health gauge and the channel of a cycle on shaped
    gauges. *)
Lemma Collect_shape nvml w :
  Shaped w →
  ∃ oks e,
    (Collect nvml w).1 = Ret tt
    ∧ Shaped (Collect nvml w).2
    ∧ devicesOf (Collect nvml w).2 = devicesOf w
    ∧ trace (Collect nvml w).2
      = trace w ++ [EvLock]
          ++ (EvReset <$> (map_to_list (gauges (exporter w))).*1)
          ++ [EvUpSet 1] ++ oks ++ endingEvents e
          ++ (EvSend <$> collected (gauges (exporter (Collect nvml w).2)))
          ++ [EvSend (upMetric (upOf (Collect nvml w).2)); EvUnlock]
    ∧ Forall (okEvent (devicesOf w)) oks
    ∧ endsWhere nvml 0 (devicesOf w) e
    ∧ upOf (Collect nvml w).2 = endingUp e 1
    ∧ sent (Collect nvml w).2
      = sent w ++ collected (gauges (exporter (Collect nvml w).2))
          ++ [upMetric (upOf (Collect nvml w).2)]
    ∧ (∀ name lvs, is_Some (entryOf (Collect nvml w).2 name lvs) →
         name ∈ metricNames ∧ lvs ∈ deviceLabelValues <$> devicesOf w).
Proof.
  intros Hs.
  destruct (Collect_runs nvml w Hs) as (wT & e & Hran & Hends & ->).
  destruct Hran as (HS & Hd & Hse & Hu & (oks & Ht & Hoks) & He).
  destruct (started_spec w) as (Hu0 & Hd0 & Hs0 & Ht0 & Hg0).
  destruct (finished_spec wT) as (Hu1 & Hd1 & Hs1 & Ht1 & Hg1).
  exists oks, e. cbn [fst snd].
  split; [done|]. split; [unfold Shaped; by rewrite Hg1|].
  split; [congruence|]. split.
  { rewrite Ht1, Ht, Ht0, Hg1, Hu1. by rewrite <- !app_assoc. }
  split; [done|]. split; [done|].
  split; [by rewrite Hu1, Hu, Hu0|].
  split; [by rewrite Hs1, Hse, Hs0, Hg1, Hu1|].
  intros name lvs. rewrite entryOf_finished. intros Hsome. split.
  - destruct (decide (name ∈ metricNames)) as [|Hn]; [done|].
    rewrite entryOf_not_catalog in Hsome by done. by destruct Hsome.
  - destruct (He _ _ Hsome) as [H|H]; [|done].
    rewrite entryOf_started in H. by destruct H.
Qed.

(** The health gauge is the last metric written to the channel, also
    when the telemetry panics: the send is deferred. *)
Lemma up_sent_last nvml w :
  last (sent (Collect nvml w).2) = Some (upMetric (upOf (Collect nvml w).2)).
Proof.
  rewrite Collect_unfold.
  destruct (GetTelemetryFromNVML nvml (started w)) as [[[]|msg] wT];
    cbn [fst snd].
  - destruct (finished_spec wT) as (-> & _ & -> & _).
    by rewrite app_assoc, last_snoc.
  - unfold sendUp. cbn [snd]. autorewrite with world. by rewrite last_snoc.
Qed.

(** Every world of a running exporter has shaped gauges: the theorems
    on shaped worlds are about every cycle. *)
Lemma reachable_Shaped w : reachable w → Shaped w.
Proof.
  induction 1 as [ds|nvml w _ IH].
  - apply shaped_NewExporter.
  - by destruct (Collect_shape nvml w IH) as (_ & _ & _ & HS & _).
Qed.

(** C5.  The events of a cycle, in order: the lock, the resets of the
    vectors, the health gauge set to 1, then answered queries and writes
    only, then the ending, then the sends of the collected metrics and
    of the health gauge, and the unlock.  The ending is empty when no
    query fails; else it is the first failing query, the printed line
    and the health gauge set to 0.  So the gauge is set to 1 after the
    reset and before every query, goes to 0 right after the first query
    that fails (of whatever class), is never set again in the cycle, and
    is the last metric sent in either case. *)
Theorem health_gauge_protocol nvml w :
  Shaped w →
  ∃ oks e,
    (Collect nvml w).1 = Ret tt
    ∧ trace (Collect nvml w).2
      = trace w ++ [EvLock]
          ++ (EvReset <$> (map_to_list (gauges (exporter w))).*1)
          ++ [EvUpSet 1] ++ oks ++ endingEvents e
          ++ (EvSend <$> collected (gauges (exporter (Collect nvml w).2)))
          ++ [EvSend (upMetric (upOf (Collect nvml w).2)); EvUnlock]
    ∧ Forall (okEvent (devicesOf w)) oks
    ∧ endsWhere nvml 0 (devicesOf w) e
    ∧ upOf (Collect nvml w).2 = endingUp e 1
    ∧ last (sent (Collect nvml w).2)
      = Some (upMetric (upOf (Collect nvml w).2)).
Proof.
  intros Hs.
  destruct (Collect_shape nvml w Hs)
    as (oks & e & Ho & _ & _ & Ht & Hoks & Hends & Hu & _).
  exists oks, e. do 5 (split; [done|]). apply up_sent_last.
Qed.

Lemma health_gauge_protocol_witness :
  ∃ oks e,
    (Collect (failing Temperature) (fresh [gpu0; gpu1])).1 = Ret tt
    ∧ trace (Collect (failing Temperature) (fresh [gpu0; gpu1])).2
      = trace (fresh [gpu0; gpu1]) ++ [EvLock]
          ++ (EvReset <$> (map_to_list (gauges (exporter (fresh [gpu0; gpu1])))).*1)
          ++ [EvUpSet 1] ++ oks ++ endingEvents e
          ++ (EvSend <$> collected (gauges (exporter
                (Collect (failing Temperature) (fresh [gpu0; gpu1])).2)))
          ++ [EvSend (upMetric (upOf
                (Collect (failing Temperature) (fresh [gpu0; gpu1])).2));
              EvUnlock]
    ∧ Forall (okEvent (devicesOf (fresh [gpu0; gpu1]))) oks
    ∧ endsWhere (failing Temperature) 0 (devicesOf (fresh [gpu0; gpu1])) e
    ∧ upOf (Collect (failing Temperature) (fresh [gpu0; gpu1])).2
      = endingUp e 1
    ∧ last (sent (Collect (failing Temperature) (fresh [gpu0; gpu1])).2)
      = Some (upMetric (upOf
                (Collect (failing Temperature) (fresh [gpu0; gpu1])).2)).
Proof.
  apply (health_gauge_protocol (failing Temperature) (fresh [gpu0; gpu1])).
  apply Shaped_compute. reflexivity.
Defined.

(** ** The exported snapshot *)

Lemma String_inj c1 c2 (s1 s2 : string) :
  String c1 s1 = String c2 s2 → c1 = c2 ∧ s1 = s2.
Proof. by intros [= -> ->]. Qed.

Lemma BuildFQName_inj a b :
  BuildFQName DefaultNamespace a = BuildFQName DefaultNamespace b → a = b.
Proof.
  unfold BuildFQName, DefaultNamespace. intros H.
  by repeat (apply String_inj in H as [_ H]).
Qed.

Lemma collected_shaped w m :
  Shaped w →
  m ∈ collected (gauges (exporter w)) ↔
  ∃ name lvs v,
    name ∈ metricNames ∧ entryOf w name lvs = Some v
    ∧ m = mkMetric (BuildFQName DefaultNamespace name) deviceLabels lvs v.
Proof.
  intros Hs. rewrite collected_elem. unfold entryOf, entry. split.
  - intros (name & vec & lvs & v & Hg & Hc & ->).
    assert (name ∈ metricNames) as Hn.
    { destruct (decide (name ∈ metricNames)) as [|Hn]; [done|].
      by rewrite (shaped_lookup_None _ _ Hs Hn) in Hg. }
    destruct (shaped_lookup _ _ Hs Hn) as (vec' & Hg' & Hfq & Hvl).
    assert (vec' = vec) as -> by congruence.
    exists name, lvs, v. rewrite Hg, Hfq, Hvl. by cbn.
  - intros (name & lvs & v & Hn & He & ->).
    destruct (shaped_lookup _ _ Hs Hn) as (vec & Hg & Hfq & Hvl).
    rewrite Hg in He. cbn in He.
    exists name, vec, lvs, v. by rewrite Hfq, Hvl.
Qed.

Lemma NoDup_vecCollect vec : NoDup (vecCollect vec).
Proof.
  unfold vecCollect. apply NoDup_fmap_2_strong; [|apply NoDup_map_to_list].
  intros [l1 v1] [l2 v2] _ _ [= -> ->]. done.
Qed.

Lemma NoDup_collected g : shaped g → NoDup (collected g).
Proof.
  intros Hs. unfold collected. apply NoDup_bind.
  - intros [n1 v1] [n2 v2] m H1 H2 Hm1 Hm2.
    apply elem_of_map_to_list in H1, H2.
    assert (∀ n v, g !! n = Some v → fqName v = BuildFQName DefaultNamespace n)
      as Hfq.
    { intros n v Hg. destruct (decide (n ∈ metricNames)) as [Hn|Hn].
      - destruct (shaped_lookup _ _ Hs Hn) as (v' & Hg' & ? & _). congruence.
      - by rewrite (shaped_lookup_None _ _ Hs Hn) in Hg. }
    unfold vecCollect in Hm1, Hm2. cbn [snd] in Hm1, Hm2.
    apply list_elem_of_fmap in Hm1 as (kv1 & -> & _).
    apply list_elem_of_fmap in Hm2 as (kv2 & Heq & _).
    injection Heq as Heq _ _ _.
    rewrite (Hfq _ _ H1), (Hfq _ _ H2) in Heq.
    apply BuildFQName_inj in Heq as ->. congruence.
  - intros kv _. apply NoDup_vecCollect.
  - apply NoDup_map_to_list.
Qed.

Lemma up_not_in_catalog : "up" ∉ metricNames.
Proof. apply not_elem_of_compute. reflexivity. Qed.

(** The series of the snapshot have pairwise different names and label
    values. *)
Lemma NoDup_snapshot w u :
  Shaped w →
  NoDup ((λ m, (metricName m, labelValues m))
           <$> (collected (gauges (exporter w)) ++ [upMetric u])).
Proof.
  intros Hs.
  assert (∀ m, m ∈ collected (gauges (exporter w)) →
            metricName m ≠ metricName (upMetric u)) as Hup.
  { intros m Hm Heq.
    apply collected_shaped in Hm as (name & lvs & v & Hn & _ & ->); [|done].
    apply BuildFQName_inj in Heq as ->. by apply up_not_in_catalog. }
  apply NoDup_fmap_2_strong.
  - intros m1 m2 H1 H2 Hkey. injection Hkey as Hname Hlvs.
    apply elem_of_app in H1 as [H1|H1], H2 as [H2|H2].
    + apply collected_shaped in H1 as (n1 & l1 & v1 & _ & He1 & ->); [|done].
      apply collected_shaped in H2 as (n2 & l2 & v2 & _ & He2 & ->); [|done].
      cbn in Hname, Hlvs. apply BuildFQName_inj in Hname as ->. subst l2.
      congruence.
    + apply list_elem_of_singleton in H2 as ->. by apply Hup in H1.
    + apply list_elem_of_singleton in H1 as ->. symmetry in Hname.
      by apply Hup in H2.
    + apply list_elem_of_singleton in H1, H2. congruence.
  - apply NoDup_app. split; [by apply NoDup_collected|]. split.
    + intros m Hm Hin. apply list_elem_of_singleton in Hin as ->.
      by apply (Hup _ Hm).
    + apply NoDup_singleton.
Qed.

(** C8.  The snapshot a cycle exports holds at most one value per metric
    name and label values, and each of its series other than the health
    gauge carries the label values of a device of this cycle's list:
    whatever the registry held before under other label values is gone
    from the registry and from the snapshot. *)
Theorem one_value_per_series nvml w :
  Shaped w →
  ∃ ms,
    sent (Collect nvml w).2 = sent w ++ ms
    ∧ NoDup ((λ m, (metricName m, labelValues m)) <$> ms)
    ∧ (∀ m, m ∈ ms →
         m = upMetric (upOf (Collect nvml w).2)
         ∨ ∃ name, name ∈ metricNames
             ∧ metricName m = BuildFQName DefaultNamespace name
             ∧ entryOf (Collect nvml w).2 name (labelValues m)
               = Some (metricValue m)
             ∧ labelValues m ∈ deviceLabelValues <$> devicesOf w)
    ∧ (∀ name lvs, lvs ∉ deviceLabelValues <$> devicesOf w →
         entryOf (Collect nvml w).2 name lvs = None).
Proof.
  intros Hs.
  destruct (Collect_shape nvml w Hs)
    as (oks & e & _ & HS & _ & _ & _ & _ & _ & Hsent & Hkeys).
  exists (collected (gauges (exporter (Collect nvml w).2))
            ++ [upMetric (upOf (Collect nvml w).2)]).
  split; [done|]. split; [by apply NoDup_snapshot|]. split.
  - intros m Hm. apply elem_of_app in Hm as [Hm|Hm].
    + right. apply collected_shaped in Hm as (name & lvs & v & Hn & He & ->);
        [|done].
      exists name. cbn. do 3 (split; [done|]).
      by apply (Hkeys name lvs).
    + left. by apply list_elem_of_singleton in Hm.
  - intros name lvs Hnot.
    destruct (entryOf (Collect nvml w).2 name lvs) as [v|] eqn:E; [|done].
    exfalso. apply Hnot. by apply (Hkeys name lvs).
Qed.

Lemma one_value_per_series_witness :
  entryOf (scraped [gpu0; gpu1]) "gpu_percent" (deviceLabelValues gpu1)
  = Some 45
  ∧ entryOf (Collect healthy (mkWorld (mkExporter 1
               (gauges (exporter (scraped [gpu0; gpu1]))) [gpu0]) [] [])).2
      "gpu_percent" (deviceLabelValues gpu1) = None.
Proof.
  split; [vm_compute; reflexivity|].
  destruct (one_value_per_series healthy (mkWorld (mkExporter 1
              (gauges (exporter (scraped [gpu0; gpu1]))) [gpu0]) [] []))
    as (ms & _ & _ & _ & Hgone).
  - apply Shaped_compute. vm_compute. reflexivity.
  - apply Hgone. apply not_elem_of_compute. reflexivity.
Defined.

(** ** Labels *)

(** [Itoa] writes the decimal digits, with a minus sign for a negative
    index, and different indices give different strings. *)
Lemma Itoa_decimal :
  Itoa 0 = "0" ∧ Itoa 7 = "7" ∧ Itoa 12 = "12" ∧ Itoa 305 = "305"
  ∧ Itoa (-3) = "-3".
Proof. repeat split; reflexivity. Qed.

Lemma Itoa_inj n m : Itoa n = Itoa m → n = m.
Proof. unfold Itoa. apply (inj pretty). Qed.

Lemma device_labels_schema name lvs (ds : list Device) :
  name ∈ metricNames → lvs ∈ deviceLabelValues <$> ds →
  ∃ info d,
    gaugeMetrics !! name = Some info
    ∧ length lvs = length (labels info)
    ∧ d ∈ ds
    ∧ lvs = [Itoa (i d); DeviceUUID d; DeviceName d].
Proof.
  intros Hn Hl. apply catalog_names in Hn as [info Hi].
  apply list_elem_of_fmap in Hl as (d & -> & Hd).
  exists info, d. split; [done|].
  apply catalog_lookup in Hi as [_ ->]. done.
Qed.

(** C9.  In every cycle, every write of a child, every child the
    registry holds after the cycle and every series of the snapshot
    other than the health gauge carries the three label values
    [Itoa i], [DeviceUUID], [DeviceName] of a device of the list, in
    this order; every catalog metric declares the three labels
    [device_id], [device_uuid], [device_name], so no write is refused
    for its number of label values. *)
Theorem label_schema nvml w :
  Shaped w →
  (Collect nvml w).1 = Ret tt
  ∧ (∀ name info, gaugeMetrics !! name = Some info →
       labels info = ["device_id"; "device_uuid"; "device_name"])
  ∧ (∀ name lvs v, EvSet name lvs v ∈ trace (Collect nvml w).2 →
       EvSet name lvs v ∈ trace w
       ∨ ∃ info d,
           gaugeMetrics !! name = Some info
           ∧ length lvs = length (labels info)
           ∧ d ∈ devicesOf w
           ∧ lvs = [Itoa (i d); DeviceUUID d; DeviceName d])
  ∧ (∀ name lvs v, entryOf (Collect nvml w).2 name lvs = Some v →
       ∃ info d,
         gaugeMetrics !! name = Some info
         ∧ length lvs = length (labels info)
         ∧ d ∈ devicesOf w
         ∧ lvs = [Itoa (i d); DeviceUUID d; DeviceName d])
  ∧ (∀ m, m ∈ sent (Collect nvml w).2 →
       m ∈ sent w
       ∨ m = upMetric (upOf (Collect nvml w).2)
       ∨ labelNames m = ["device_id"; "device_uuid"; "device_name"]
         ∧ ∃ d, d ∈ devicesOf w
                ∧ labelValues m = [Itoa (i d); DeviceUUID d; DeviceName d]).
Proof.
  intros Hs.
  destruct (Collect_shape nvml w Hs)
    as (oks & e & Ho & HS & _ & Ht & Hoks & _ & _ & Hsent & Hkeys).
  split; [done|]. split; [by intros name info [_ ?]%catalog_lookup|].
  split; [|split].
  - intros name lvs v. rewrite Ht, !elem_of_app.
    intros [H|[H|[H|[H|[H|[H|[H|H]]]]]]].
    + by left.
    + by apply list_elem_of_singleton in H.
    + by apply list_elem_of_fmap in H as (? & ? & _).
    + by apply list_elem_of_singleton in H.
    + right. rewrite Forall_forall in Hoks. destruct (Hoks _ H) as [Hn Hl].
      by apply device_labels_schema.
    + destruct e; cbn in H; [by apply elem_of_nil in H|].
      rewrite !elem_of_cons, elem_of_nil in H. by destruct H as [|[|[|]]].
    + by apply list_elem_of_fmap in H as (? & ? & _).
    + rewrite !elem_of_cons, elem_of_nil in H. by destruct H as [|[|]].
  - intros name lvs v He.
    destruct (Hkeys name lvs) as [Hn Hl]; [by eexists|].
    by apply device_labels_schema.
  - intros m. rewrite Hsent, !elem_of_app.
    intros [H|[H|H]]; [by left| |right; left; by apply list_elem_of_singleton in H].
    right. right.
    apply collected_shaped in H as (name & lvs & v & Hn & He & ->); [|done].
    split; [done|].
    destruct (Hkeys name lvs) as [_ Hl]; [by eexists|].
    apply list_elem_of_fmap in Hl as (d & -> & Hd). by exists d.
Qed.

Lemma label_schema_witness :
  entryOf (Collect healthy (fresh [gpu1])).2 "gpu_percent"
    ["1"; "GPU-77e2"; "Tesla K80"] = Some 45
  ∧ ∃ info d,
      gaugeMetrics !! "gpu_percent" = Some info
      ∧ length ["1"; "GPU-77e2"; "Tesla K80"] = length (labels info)
      ∧ d ∈ devicesOf (fresh [gpu1])
      ∧ ["1"; "GPU-77e2"; "Tesla K80"]
        = [Itoa (i d); DeviceUUID d; DeviceName d].
Proof.
  split; [vm_compute; reflexivity|].
  destruct (label_schema healthy (fresh [gpu1])) as (_ & _ & _ & He & _).
  - apply Shaped_compute. reflexivity.
  - apply (He "gpu_percent" ["1"; "GPU-77e2"; "Tesla K80"] 45).
    vm_compute. reflexivity.
Defined.

(** * Further properties of the collector *)

(** ** The health gauge *)

Lemma firstFailure_None nvml k device :
  firstFailure nvml k device = None ↔ allOk nvml k device.
Proof.
  unfold firstFailure, allOk, queryErr. split.
  - intros H c.
    destruct (GetUtilization nvml k device); [done|].
    destruct (GetTemperature nvml k device); [done|].
    destruct (GetPowerUsage nvml k device); [done|].
    destruct (GetMemoryInfo nvml k device); [done|].
    by destruct c.
  - intros H.
    pose proof (H Utilization) as HU. pose proof (H Temperature) as HT.
    pose proof (H PowerUsage) as HP. pose proof (H MemoryInfo) as HM.
    cbn in HU, HT, HP, HM.
    destruct (GetUtilization nvml k device); [done|].
    destruct (GetTemperature nvml k device); [done|].
    destruct (GetPowerUsage nvml k device); [done|].
    by destruct (GetMemoryInfo nvml k device).
Qed.

Lemma firstFailure_Some nvml k device c :
  firstFailure nvml k device = Some c →
  is_Some (queryErr nvml k device c)
  ∧ ∀ c', c' ∈ classesBefore c → queryErr nvml k device c' = None.
Proof.
  unfold firstFailure, queryErr.
  destruct (GetUtilization nvml k device) as [e|u].
  { intros [= <-]. split; [by eexists|]. by intros c' ?%elem_of_nil. }
  destruct (GetTemperature nvml k device) as [e|t].
  { intros [= <-]. split; [by eexists|]. intros c' Hc.
    cbn in Hc. rewrite !elem_of_cons, elem_of_nil in Hc.
    by destruct Hc as [->|[]]. }
  destruct (GetPowerUsage nvml k device) as [e|p].
  { intros [= <-]. split; [by eexists|]. intros c' Hc.
    cbn in Hc. rewrite !elem_of_cons, elem_of_nil in Hc.
    by destruct Hc as [->|[->|[]]]. }
  destruct (GetMemoryInfo nvml k device) as [e|m]; [|done].
  intros [= <-]. split; [by eexists|]. intros c' Hc.
  cbn in Hc. rewrite !elem_of_cons, elem_of_nil in Hc.
  by destruct Hc as [->|[->|[->|[]]]].
Qed.

(** The health gauge after a cycle is 1 exactly when the driver answers
    every query of every device of the list, and 0 exactly when some
    query of some device fails. *)
Theorem health_gauge_exact nvml w :
  Shaped w →
  (upOf (Collect nvml w).2 = 1
   ↔ ∀ k d c, devicesOf w !! k = Some d → queryErr nvml k d c = None)
  ∧ (upOf (Collect nvml w).2 = 0
     ↔ ∃ k d c err, devicesOf w !! k = Some d
                    ∧ queryErr nvml k d c = Some err).
Proof.
  intros Hs.
  destruct (Collect_shape nvml w Hs)
    as (oks & e & _ & _ & _ & _ & _ & Hends & -> & _).
  destruct e as [|j c line]; cbn [endingUp endsWhere] in *.
  - assert (∀ k d c, devicesOf w !! k = Some d → queryErr nvml k d c = None)
      as Hall.
    { intros k d c Hk. by apply (firstFailure_None nvml k d), Hends. }
    split; [done|]. split; [done|].
    intros (k & d & c & err & Hk & He). by rewrite (Hall k d c Hk) in He.
  - destruct Hends as (n & d & -> & Hn & Hff & _).
    rewrite Nat.add_0_l in Hff.
    apply firstFailure_Some in Hff as [[err He] _].
    split; split; try done.
    + intros Hall. by rewrite (Hall _ _ c Hn) in He.
    + intros _. by exists n, d, c, err.
Qed.

Lemma health_gauge_exact_witness :
  upOf (Collect (failing MemoryInfo) (fresh [gpu0; gpu1])).2 = 0
  ↔ ∃ k d c err,
      devicesOf (fresh [gpu0; gpu1]) !! k = Some d
      ∧ queryErr (failing MemoryInfo) k d c = Some err.
Proof.
  apply (health_gauge_exact (failing MemoryInfo) (fresh [gpu0; gpu1])).
  apply Shaped_compute. reflexivity.
Defined.

(** ** The snapshot and the registry *)

(** Every child the registry holds after a cycle is exported in that
    cycle, with its value, under the name [nvml_<metric>] and the label
    names [device_id], [device_uuid], [device_name]. *)
Theorem snapshot_complete nvml w name lvs v :
  Shaped w →
  entryOf (Collect nvml w).2 name lvs = Some v →
  mkMetric ("nvml_" +:+ name) ["device_id"; "device_uuid"; "device_name"]
           lvs v
  ∈ drop (length (sent w)) (sent (Collect nvml w).2).
Proof.
  intros Hs He.
  destruct (Collect_shape nvml w Hs)
    as (oks & e & _ & HS & _ & _ & _ & _ & _ & -> & Hkeys).
  rewrite drop_app_length. apply elem_of_app. left.
  apply collected_shaped; [done|].
  exists name, lvs, v. split; [|done].
  by apply (Hkeys name lvs).
Qed.

Lemma snapshot_complete_witness :
  mkMetric "nvml_memory_total" ["device_id"; "device_uuid"; "device_name"]
           ["1"; "GPU-77e2"; "Tesla K80"] 4000000
  ∈ drop (length (sent (fresh [gpu0; gpu1])))
         (sent (Collect healthy (fresh [gpu0; gpu1])).2).
Proof.
  apply (snapshot_complete healthy (fresh [gpu0; gpu1]) "memory_total").
  - apply Shaped_compute. reflexivity.
  - vm_compute. reflexivity.
Defined.

(** ** Cycle after cycle *)

Lemma cycles_snoc nvmls nvml w :
  cycles (nvmls ++ [nvml]) w = (Collect nvml (cycles nvmls w)).2.
Proof. unfold cycles. by rewrite foldl_app. Qed.

(** An exporter built by [NewExporter] keeps, through any number of
    cycles and whatever the driver answers, its device list and exactly
    the catalog's vectors with their descriptors, and none of its cycles
    panics on a missing vector or a wrong number of label values. *)
Theorem exporter_keeps_running ds nvmls nvml :
  devicesOf (cycles nvmls (mkWorld (NewExporter (ds, None)).1 [] [])) = ds
  ∧ (∀ name,
       (λ vec, (fqName vec, variableLabels vec))
         <$> gauges (exporter
               (cycles nvmls (mkWorld (NewExporter (ds, None)).1 [] [])))
             !! name
       = (λ info, ("nvml_" +:+ name, labels info)) <$> gaugeMetrics !! name)
  ∧ (Collect nvml (cycles nvmls (mkWorld (NewExporter (ds, None)).1 [] []))).1
    = Ret tt.
Proof.
  assert (Shaped (cycles nvmls (mkWorld (NewExporter (ds, None)).1 [] []))
          ∧ devicesOf (cycles nvmls (mkWorld (NewExporter (ds, None)).1 [] []))
            = ds) as [HS Hd].
  { induction nvmls as [|nv nvmls IH] using rev_ind.
    - split; [apply shaped_NewExporter|done].
    - rewrite cycles_snoc. destruct IH as [HS Hd].
      destruct (Collect_shape nv _ HS) as (_ & _ & _ & HS' & Hd' & _).
      split; [done|congruence]. }
  split; [done|]. split.
  - intros name. pose proof (HS name) as H.
    destruct (gauges _ !! name) as [vec|], (gaugeMetrics !! name) as [info|];
      try done.
    cbn in *. injection H as Hfq Hvl. by rewrite Hfq, Hvl.
  - by destruct (Collect_shape nvml _ HS) as (_ & _ & ? & _).
Qed.

(** *** A cycle forgets the cycles before it *)

Lemma exporter_log ev w : exporter (log ev w) = exporter w.
Proof. reflexivity. Qed.

Lemma exporter_setUp v w :
  exporter (setUp v w)
  = mkExporter v (gauges (exporter w)) (devices (exporter w)).
Proof. reflexivity. Qed.

Lemma exporter_writeChild name lvs v w :
  exporter (writeChild name lvs v w)
  = mkExporter (up (exporter w))
      (alter (SetChild lvs v) name (gauges (exporter w)))
      (devices (exporter w)).
Proof. reflexivity. Qed.

Lemma exporter_send ms w : exporter (send ms w) = exporter w.
Proof. reflexivity. Qed.

Lemma exporter_log_eq ev w w' :
  exporter w = exporter w' → exporter (log ev w) = exporter (log ev w').
Proof. by rewrite !exporter_log. Qed.

Lemma exporter_setUp_eq v w w' :
  exporter w = exporter w' → exporter (setUp v w) = exporter (setUp v w').
Proof. intros H. by rewrite !exporter_setUp, H. Qed.

Lemma exporter_writeChild_eq name lvs v w w' :
  exporter w = exporter w' →
  exporter (writeChild name lvs v w) = exporter (writeChild name lvs v w').
Proof. intros H. by rewrite !exporter_writeChild, H. Qed.

Ltac exporters H :=
  repeat first
    [ apply exporter_log_eq | apply exporter_setUp_eq
    | apply exporter_writeChild_eq ];
  exact H.

Lemma exporter_eta w w' :
  upOf w = upOf w' → gauges (exporter w) = gauges (exporter w') →
  devicesOf w = devicesOf w' → exporter w = exporter w'.
Proof.
  unfold upOf, devicesOf. destruct (exporter w), (exporter w'). cbn.
  by intros -> -> ->.
Qed.

(** The exporter the device loop leaves depends on the exporter it
    starts from, not on the channel or the trace. *)
Lemma telemetryLoop_exporter nvml ds : ∀ k w w',
  Shaped w → exporter w = exporter w' →
  exporter (telemetryLoop nvml k ds w).2
  = exporter (telemetryLoop nvml k ds w').2.
Proof.
  induction ds as [|device rest IH]; intros k w w' Hs He; [done|].
  assert (Shaped w') as Hs' by (unfold Shaped; by rewrite <- He).
  rewrite !telemetryLoop_cons by done.
  pose proof (Quiet_refl [device] w Hs) as Q0.
  assert (device ∈ [device]) as Hd by left.
  destruct (GetUtilization nvml k device) as [err|u].
  { cbn [snd]. unfold aborted. exporters He. }
  cbv zeta.
  pose proof (Quiet_wroteUtilization _ k device u _ _ Hd Q0) as Q1.
  destruct (GetTemperature nvml k device) as [err|t].
  { cbn [snd]. unfold aborted, wroteUtilization. exporters He. }
  pose proof (Quiet_wroteTemperature _ k device t _ _ Hd Q1) as Q2.
  destruct (GetPowerUsage nvml k device) as [err|p].
  { cbn [snd]. unfold aborted, wroteTemperature, wroteUtilization.
    exporters He. }
  pose proof (Quiet_wrotePowerUsage _ k device p _ _ Hd Q2) as Q3.
  destruct (GetMemoryInfo nvml k device) as [err|m].
  { cbn [snd].
    unfold aborted, wrotePowerUsage, wroteTemperature, wroteUtilization.
    exporters He. }
  pose proof (Quiet_wroteMemoryInfo _ k device m _ _ Hd Q3) as Q4.
  apply IH; [apply Q4|].
  unfold wroteMemoryInfo, wrotePowerUsage, wroteTemperature, wroteUtilization.
  exporters He.
Qed.

(** What a cycle leaves in the exporter and what it exports depend on
    the device list and the driver only: two exporters with the same
    devices, whatever their registries and health gauges held after
    earlier cycles, end the cycle with the same health gauge and
    registry and export the same snapshot. *)
Theorem cycle_forgets_history nvml w w' :
  Shaped w → Shaped w' →
  devicesOf w = devicesOf w' →
  exporter (Collect nvml w).2 = exporter (Collect nvml w').2
  ∧ drop (length (sent w)) (sent (Collect nvml w).2)
    = drop (length (sent w')) (sent (Collect nvml w').2).
Proof.
  intros Hs Hs' Hd.
  assert (exporter (Collect nvml w).2 = exporter (Collect nvml w').2) as He.
  { destruct (started_spec w) as (Hu & Hds & _ & _ & Hg).
    destruct (started_spec w') as (Hu' & Hds' & _ & _ & Hg').
    assert (exporter (started w) = exporter (started w')) as Hstart.
    { apply exporter_eta; [congruence| |congruence].
      rewrite Hg, Hg'. apply map_eq. intros name.
      by rewrite !lookup_fmap, (Hs name), (Hs' name). }
    pose proof (telemetryLoop_exporter nvml (devicesOf w) 0 _ _
                  (started_Shaped w Hs) Hstart) as Hloop.
    destruct (telemetryLoop_runs nvml (devicesOf w) (devicesOf w) 0
                (started w)) as (wT & e & Hrun & _);
      [by apply started_Shaped|done|].
    destruct (telemetryLoop_runs nvml (devicesOf w) (devicesOf w) 0
                (started w')) as (wT' & e' & Hrun' & _);
      [by apply started_Shaped|done|].
    rewrite Hrun, Hrun' in Hloop. cbn [snd] in Hloop.
    rewrite !Collect_unfold. unfold GetTelemetryFromNVML.
    unfold devicesOf in *. rewrite Hds, Hds', <- Hd, Hrun, Hrun'. cbn [snd].
    destruct (finished_spec wT) as (Hf1 & Hf2 & _ & _ & Hf3).
    destruct (finished_spec wT') as (Hf1' & Hf2' & _ & _ & Hf3').
    apply exporter_eta; unfold upOf, devicesOf in *; congruence. }
  split; [done|].
  destruct (Collect_shape nvml w Hs) as (_ & _ & _ & _ & _ & _ & _ & _ & _ & -> & _).
  destruct (Collect_shape nvml w' Hs')
    as (_ & _ & _ & _ & _ & _ & _ & _ & _ & -> & _).
  rewrite !drop_app_length. unfold upOf. by rewrite He.
Qed.

Lemma cycle_forgets_history_witness :
  upOf (fresh [gpu0; gpu1]) = 0
  ∧ upOf (scraped [gpu0; gpu1]) = 1
  ∧ exporter (Collect (failing PowerUsage) (fresh [gpu0; gpu1])).2
    = exporter (Collect (failing PowerUsage) (scraped [gpu0; gpu1])).2.
Proof.
  split; [reflexivity|]. split; [vm_compute; reflexivity|].
  apply (cycle_forgets_history (failing PowerUsage)
           (fresh [gpu0; gpu1]) (scraped [gpu0; gpu1])).
  - apply Shaped_compute. reflexivity.
  - apply Shaped_compute. vm_compute. reflexivity.
  - vm_compute. reflexivity.
Defined.

(** ** Describe *)

Lemma Describe_elem e d :
  d ∈ Describe e ↔
  d = upDesc
  ∨ ∃ name vec, gauges e !! name = Some vec
                ∧ d = mkDesc (fqName vec) (variableLabels vec).
Proof.
  unfold Describe, vecDescribe. rewrite elem_of_cons, list_elem_of_bind.
  split; (intros [?|H]; [by left|right]).
  - destruct H as ([name vec] & Hd & Hkv).
    apply list_elem_of_singleton in Hd. apply elem_of_map_to_list in Hkv.
    by exists name, vec.
  - destruct H as (name & vec & Hg & ->). exists (name, vec).
    split; [by apply list_elem_of_singleton|by apply elem_of_map_to_list].
Qed.

Lemma Describe_shaped w d :
  Shaped w →
  d ∈ Describe (exporter w) ↔
  d = upDesc
  ∨ ∃ name, name ∈ metricNames
            ∧ d = mkDesc (BuildFQName DefaultNamespace name) deviceLabels.
Proof.
  intros Hs. rewrite Describe_elem.
  split; (intros [?|H]; [by left|right]).
  - destruct H as (name & vec & Hg & ->).
    assert (name ∈ metricNames) as Hn.
    { destruct (decide (name ∈ metricNames)) as [|Hn]; [done|].
      by rewrite (shaped_lookup_None _ _ Hs Hn) in Hg. }
    destruct (shaped_lookup _ _ Hs Hn) as (vec' & Hg' & Hfq & Hvl).
    assert (vec' = vec) as -> by congruence.
    exists name. by rewrite Hfq, Hvl.
  - destruct H as (name & Hn & ->).
    destruct (shaped_lookup _ _ Hs Hn) as (vec & Hg & Hfq & Hvl).
    exists name, vec. by rewrite Hfq, Hvl.
Qed.

Lemma shaped_size g : shaped g → size g = 8%nat.
Proof.
  intros Hs. rewrite <- (map_size_fmap Reset).
  assert (Reset <$> g = gauges (NewExporter ([], None)).1) as ->; [|done].
  apply map_eq. intros name.
  by rewrite lookup_fmap, (Hs name), NewExporter_gauges_lookup.
Qed.

Lemma length_bind_singleton {A B} (f : A → B) (l : list A) :
  length (x ← l; [f x]) = length l.
Proof. induction l as [|x l IH]; [done|]. cbn. by rewrite IH. Qed.

(** [Describe] announces nine descriptors with pairwise different
    names: [nvml_up] without labels and, for each catalog metric,
    [nvml_<metric>] with the labels [device_id], [device_uuid],
    [device_name]; so the registration of the exporter meets no clash of
    names. *)
Theorem Describe_nine_distinct w :
  Shaped w →
  length (Describe (exporter w)) = 9%nat
  ∧ NoDup (descName <$> Describe (exporter w))
  ∧ ∀ d, d ∈ Describe (exporter w) ↔
         d = mkDesc "nvml_up" []
         ∨ ∃ name, is_Some (gaugeMetrics !! name)
                   ∧ d = mkDesc ("nvml_" +:+ name)
                           ["device_id"; "device_uuid"; "device_name"].
Proof.
  intros Hs. split; [|split].
  - unfold Describe, vecDescribe. cbn [length].
    by rewrite (length_bind_singleton
                  (λ kv, mkDesc (fqName kv.2) (variableLabels kv.2))),
      length_map_to_list, shaped_size.
  - apply NoDup_fmap_2_strong.
    + intros d1 d2 H1 H2 Hname.
      apply (Describe_shaped _ _ Hs) in H1 as [->|(n1 & Hn1 & ->)];
        apply (Describe_shaped _ _ Hs) in H2 as [->|(n2 & Hn2 & ->)];
        cbn in Hname; try done.
      * apply BuildFQName_inj in Hname as <-. by apply up_not_in_catalog in Hn2.
      * apply BuildFQName_inj in Hname as ->. by apply up_not_in_catalog in Hn1.
      * by apply BuildFQName_inj in Hname as ->.
    + unfold Describe. apply NoDup_cons. split.
      * intros Hin.
        apply list_elem_of_bind in Hin as ([name vec] & Hd & Hkv).
        apply list_elem_of_singleton in Hd. apply elem_of_map_to_list in Hkv.
        assert (name ∈ metricNames) as Hn.
        { destruct (decide (name ∈ metricNames)) as [|Hn]; [done|].
          by rewrite (shaped_lookup_None _ _ Hs Hn) in Hkv. }
        destruct (shaped_lookup _ _ Hs Hn) as (vec' & Hg' & Hfq & _).
        assert (vec' = vec) as -> by congruence.
        apply (f_equal descName) in Hd. cbn [descName upDesc snd] in Hd.
        rewrite Hfq in Hd. apply BuildFQName_inj in Hd as <-.
        by apply up_not_in_catalog.
      * apply NoDup_bind; [|intros; apply NoDup_singleton|apply NoDup_map_to_list].
        intros [n1 v1] [n2 v2] d H1 H2 Hd1 Hd2.
        apply elem_of_map_to_list in H1, H2.
        apply list_elem_of_singleton in Hd1, Hd2. subst d.
        apply (f_equal descName) in Hd2. cbn [descName snd] in Hd2.
        assert (∀ n v, gauges (exporter w) !! n = Some v →
                  fqName v = BuildFQName DefaultNamespace n) as Hfq.
        { intros n v Hg. destruct (decide (n ∈ metricNames)) as [Hn|Hn].
          - destruct (shaped_lookup _ _ Hs Hn) as (v' & Hg' & ? & _).
            congruence.
          - by rewrite (shaped_lookup_None _ _ Hs Hn) in Hg. }
        rewrite (Hfq _ _ H1), (Hfq _ _ H2) in Hd2.
        apply BuildFQName_inj in Hd2 as ->. congruence.
  - intros d. rewrite (Describe_shaped _ _ Hs).
    split; (intros [->|(name & Hn & ->)]; [by left|right; exists name]);
      split; try done; by apply catalog_names.
Qed.

Lemma Describe_nine_distinct_witness :
  length (Describe (exporter (fresh [gpu0]))) = 9%nat
  ∧ NoDup (descName <$> Describe (exporter (fresh [gpu0]))).
Proof.
  destruct (Describe_nine_distinct (fresh [gpu0])) as (Hl & Hn & _).
  - apply Shaped_compute. reflexivity.
  - by split.
Defined.

(** Every metric a cycle exports was announced by [Describe]: its name
    and label names are those of a descriptor of the exporter, and it
    carries as many label values as the descriptor has labels. *)
Theorem exported_metrics_are_described nvml w m :
  Shaped w →
  m ∈ drop (length (sent w)) (sent (Collect nvml w).2) →
  mkDesc (metricName m) (labelNames m) ∈ Describe (exporter w)
  ∧ length (labelValues m) = length (labelNames m).
Proof.
  intros Hs.
  destruct (Collect_shape nvml w Hs)
    as (oks & e & _ & HS & _ & _ & _ & _ & _ & -> & Hkeys).
  rewrite drop_app_length, elem_of_app. intros [Hm|Hm].
  - apply collected_shaped in Hm as (name & lvs & v & Hn & He & ->); [|done].
    cbn. split.
    + apply Describe_shaped; [done|]. right. by exists name.
    + destruct (Hkeys name lvs) as [_ Hl]; [by eexists|].
      by apply list_elem_of_fmap in Hl as (d & -> & _).
  - apply list_elem_of_singleton in Hm as ->. cbn. split; [|done].
    apply Describe_shaped; [done|]. by left.
Qed.

Lemma exported_metrics_are_described_witness :
  mkDesc "nvml_power_watts" ["device_id"; "device_uuid"; "device_name"]
  ∈ Describe (exporter (fresh [gpu0])).
Proof.
  apply (exported_metrics_are_described healthy (fresh [gpu0])
           (mkMetric "nvml_power_watts"
              ["device_id"; "device_uuid"; "device_name"]
              ["0"; "GPU-5a1c"; "Tesla K80"] 120)).
  - apply Shaped_compute. reflexivity.
  - apply elem_of_compute. vm_compute. reflexivity.
Defined.

(** ** Panics and the deferred calls *)

Lemma Emits_ret P {A} (a : A) : Emits P (ret a).
Proof. intros w. exists []. by rewrite app_nil_r. Qed.

Lemma Emits_bind P {A B} (m : M A) (f : A → M B) :
  Emits P m → (∀ a, Emits P (f a)) → Emits P (bind m f).
Proof.
  intros Hm Hf w. unfold bind.
  destruct (Hm w) as (evs & Ht & HP & Hs).
  destruct (m w) as [[a|msg] w1]; cbn [snd] in *.
  - destruct (Hf a w1) as (evs' & Ht' & HP' & Hs').
    exists (evs ++ evs'). split; [by rewrite Ht', Ht, app_assoc|].
    split; [by apply Forall_app|congruence].
  - by exists evs.
Qed.

Lemma Emits_log P ev : P ev → Emits P (modify (log ev)).
Proof.
  intros HP w. exists [ev]. unfold modify. cbn [snd].
  autorewrite with world. split; [done|]. split; [|done].
  by constructor.
Qed.

Lemma Emits_query {A} k c (r : error + A) : Emits loopEvent (query k c r).
Proof.
  intros w. exists [EvQuery k c match r with inl _ => false | inr _ => true end].
  unfold query. cbn [snd]. autorewrite with world.
  split; [done|]. split; [|done]. by constructor.
Qed.

Lemma Emits_upSet0 : Emits loopEvent (upSet 0).
Proof.
  intros w. exists [EvUpSet 0]. unfold upSet, modify. cbn [snd].
  autorewrite with world. split; [done|]. split; [|done]. by constructor.
Qed.

Lemma Emits_gaugeSet name lvs v : Emits loopEvent (gaugeSet name lvs v).
Proof.
  intros w. unfold gaugeSet.
  destruct (gauges (exporter w) !! name) as [vec|];
    [case_decide|]; cbn [snd].
  - exists [EvSet name lvs v]. autorewrite with world.
    split; [done|]. split; [|done]. by constructor.
  - exists []. by rewrite app_nil_r.
  - exists []. by rewrite app_nil_r.
Qed.

Lemma Emits_abort what device err :
  Emits loopEvent (Printf (failedToGet what device err);; upSet 0).
Proof.
  apply Emits_bind; [by apply Emits_log|]. intros _. apply Emits_upSet0.
Qed.

(** On whatever gauges, the device loop logs loop events only and
    writes nothing to the channel. *)
Lemma Emits_telemetryLoop nvml ds : ∀ k, Emits loopEvent (telemetryLoop nvml k ds).
Proof.
  induction ds as [|device rest IH]; intros k; [apply Emits_ret|].
  cbn [telemetryLoop].
  apply Emits_bind; [apply Emits_query|].
  intros [err|[gpuPercent memoryPercent]]; [apply Emits_abort|].
  do 2 (apply Emits_bind; [apply Emits_gaugeSet|intros _]).
  apply Emits_bind; [apply Emits_query|].
  intros [err|[tempF tempC]]; [apply Emits_abort|].
  do 2 (apply Emits_bind; [apply Emits_gaugeSet|intros _]).
  apply Emits_bind; [apply Emits_query|].
  intros [err|powerUsage]; [apply Emits_abort|].
  apply Emits_bind; [apply Emits_gaugeSet|intros _].
  apply Emits_bind; [apply Emits_query|].
  intros [err|gpuMem]; [apply Emits_abort|].
  do 3 (apply Emits_bind; [apply Emits_gaugeSet|intros _]).
  apply IH.
Qed.

(** Whatever the exporter holds and whether or not the telemetry
    panics, a call of [Collect] takes the lock first and releases it
    last, once each; in between it resets the vectors, sets the health
    gauge to 1 once, never sets it to anything but 0 after that, and the
    health gauge is the last metric it writes to the channel.  When the
    call panics, the health gauge is the only metric written. *)
Theorem Collect_deferred_calls nvml w :
  ∃ evs ms,
    trace (Collect nvml w).2
    = trace w ++ [EvLock]
        ++ (EvReset <$> (map_to_list (gauges (exporter w))).*1)
        ++ [EvUpSet 1] ++ evs ++ (EvSend <$> ms)
        ++ [EvSend (upMetric (upOf (Collect nvml w).2)); EvUnlock]
    ∧ Forall loopEvent evs
    ∧ sent (Collect nvml w).2
      = sent w ++ ms ++ [upMetric (upOf (Collect nvml w).2)]
    ∧ ((Collect nvml w).1 = Ret tt ∨ ms = []).
Proof.
  rewrite Collect_unfold. unfold GetTelemetryFromNVML.
  destruct (Emits_telemetryLoop nvml (devices (exporter (started w))) 0
              (started w)) as (evs & Ht & HP & Hs).
  destruct (started_spec w) as (_ & _ & Hs0 & Ht0 & _).
  destruct (telemetryLoop nvml 0 _ (started w)) as [[[]|msg] wT];
    cbn [fst snd] in *.
  - destruct (finished_spec wT) as (Hu & _ & Hs1 & Ht1 & Hg).
    exists evs, (collected (gauges (exporter wT))).
    split; [by rewrite Ht1, Ht, Ht0, Hu, <- !app_assoc|].
    split; [done|]. split; [by rewrite Hs1, Hs, Hs0, Hu|by left].
  - exists evs, []. unfold sendUp. cbn [snd]. autorewrite with world.
    split; [by rewrite Ht, Ht0, <- !app_assoc|].
    split; [done|]. split; [by rewrite Hs, Hs0|by right].
Qed.

(** The first write of the loop on a registry without the vector
    [gpu_percent]. *)
Lemma telemetryLoop_nil_vector nvml k device rest u w :
  GetUtilization nvml k device = inr u →
  gauges (exporter w) !! "gpu_percent" = None →
  telemetryLoop nvml k (device :: rest) w
  = (Panic "nil pointer dereference", log (EvQuery k Utilization true) w).
Proof.
  intros HU Hg. cbn [telemetryLoop].
  cbv beta iota zeta delta [bind query]. rewrite HU. destruct u as [gp mp].
  assert (gaugeSet "gpu_percent" (deviceLabelValues device) gp
            (log (EvQuery k Utilization true) w)
          = (Panic "nil pointer dereference",
             log (EvQuery k Utilization true) w)) as ->; [|done].
  unfold gaugeSet. by rewrite exporter_log, Hg.
Qed.

(** The exporter that [NewExporter] returns along with an error of
    [GetDevices] has no vector: a cycle on it panics at its first write
    (a nil vector) as soon as the first device answers its utilization
    query; the deferred calls still export the health gauge, at 1, and
    release the lock. *)
Theorem error_exporter_panics nvml device rest err u ms tr :
  GetUtilization nvml 0 device = inr u →
  (NewExporter (device :: rest, Some err)).2 = Some err
  ∧ (Collect nvml
       (mkWorld (NewExporter (device :: rest, Some err)).1 ms tr)).1
    = Panic "nil pointer dereference"
  ∧ sent (Collect nvml
            (mkWorld (NewExporter (device :: rest, Some err)).1 ms tr)).2
    = ms ++ [upMetric 1]
  ∧ last (trace (Collect nvml
            (mkWorld (NewExporter (device :: rest, Some err)).1 ms tr)).2)
    = Some EvUnlock.
Proof.
  intros HU. split; [done|].
  set (W := mkWorld (NewExporter (device :: rest, Some err)).1 ms tr).
  assert (gauges (exporter W) = ∅) as HgW by reflexivity.
  assert (devicesOf W = device :: rest) as HdW by reflexivity.
  assert (sent W = ms) as HsW by reflexivity.
  rewrite Collect_unfold. unfold GetTelemetryFromNVML.
  destruct (started_spec W) as (Hu & Hd & Hs & _ & Hg).
  unfold devicesOf, upOf in *. rewrite Hd, HdW.
  rewrite HgW, fmap_empty in Hg.
  rewrite (telemetryLoop_nil_vector nvml 0 device rest u) by (by rewrite ?Hg).
  unfold sendUp. cbn [fst snd].
  split; [done|]. split.
  - by rewrite sent_log, sent_send, sent_log, Hs, exporter_log, Hu, HsW.
  - by rewrite trace_log, last_snoc.
Qed.

Lemma error_exporter_panics_witness :
  (Collect healthy
     (mkWorld (NewExporter ([gpu0], Some "NVML not initialized")).1 [] [])).1
  = Panic "nil pointer dereference".
Proof.
  apply (error_exporter_panics healthy gpu0 [] "NVML not initialized"
           (45, 60) [] []).
  reflexivity.
Defined.

(** ** The queries of a cycle *)

Lemma queriesOf_app tr1 tr2 :
  queriesOf (tr1 ++ tr2) = queriesOf tr1 ++ queriesOf tr2.
Proof. apply omap_app. Qed.

Lemma printedOf_app tr1 tr2 :
  printedOf (tr1 ++ tr2) = printedOf tr1 ++ printedOf tr2.
Proof. apply omap_app. Qed.

Lemma queriesOf_resets names : queriesOf (EvReset <$> names) = [].
Proof. by induction names. Qed.

Lemma printedOf_resets names : printedOf (EvReset <$> names) = [].
Proof. by induction names. Qed.

Lemma queriesOf_sends ms : queriesOf (EvSend <$> ms) = [].
Proof. by induction ms. Qed.

Lemma printedOf_sends ms : printedOf (EvSend <$> ms) = [].
Proof. by induction ms. Qed.

(** The events around the device loop hold no query and no printed
    line. *)
Lemma cycle_frame_events w wT evs :
  trace wT = trace (started w) ++ evs →
  ∃ evs',
    trace (finished wT) = trace w ++ evs'
    ∧ queriesOf evs' = queriesOf evs
    ∧ printedOf evs' = printedOf evs.
Proof.
  intros Ht.
  destruct (started_spec w) as (_ & _ & _ & Ht0 & _).
  destruct (finished_spec wT) as (_ & _ & _ & Ht1 & _).
  eexists. split.
  { rewrite Ht1, Ht, Ht0, <- !app_assoc. reflexivity. }
  rewrite !queriesOf_app, !printedOf_app, queriesOf_resets, printedOf_resets,
    queriesOf_sends, printedOf_sends.
  cbn. by rewrite !app_nil_r.
Qed.

Lemma trace_visited k device u t p m w :
  ∃ evs,
    trace (visited k device u t p m w) = trace w ++ evs
    ∧ queriesOf evs = (λ c, (k, c, true)) <$> allClasses
    ∧ printedOf evs = [].
Proof.
  eexists. split.
  { unfold visited, wroteMemoryInfo, wrotePowerUsage, wroteTemperature,
      wroteUtilization.
    autorewrite with world. rewrite <- !app_assoc. reflexivity. }
  done.
Qed.

(** The queries of a prefix of fully answered devices: each device once
    per class, in the order of the loop body. *)
Lemma telemetryLoop_prefix_queries nvml pre : ∀ post k w,
  Shaped w →
  (∀ j d, pre !! j = Some d → allOk nvml (k + j) d) →
  ∃ w1 evs,
    telemetryLoop nvml k (pre ++ post) w
    = telemetryLoop nvml (k + length pre) post w1
    ∧ Shaped w1
    ∧ trace w1 = trace w ++ evs
    ∧ queriesOf evs
      = (j ← seq k (length pre); (λ c, (j, c, true)) <$> allClasses)
    ∧ printedOf evs = [].
Proof.
  induction pre as [|device pre IH]; intros post k w Hs Hok.
  - exists w, []. rewrite Nat.add_0_r, app_nil_r. done.
  - assert (allOk nvml k device) as Hk.
    { rewrite <- (Nat.add_0_r k). by apply Hok. }
    destruct (allOk_answers _ _ _ Hk) as (u & t & p & m & HU & HT & HP & HM).
    assert (Shaped (visited k device u t p m w)) as Hv.
    { eapply (Quiet_visited [device]); [left|by apply Quiet_refl]. }
    destruct (trace_visited k device u t p m w) as (evs0 & Ht0 & Hq0 & Hp0).
    destruct (IH post (S k) _ Hv) as (w1 & evs & Hrun & HS1 & Ht & Hq & Hp).
    { intros j d Hj. replace (S k + j)%nat with (k + S j)%nat by lia.
      by apply Hok. }
    exists w1, (evs0 ++ evs). split.
    { cbn [app length].
      rewrite telemetryLoop_cons by done. rewrite HU, HT, HP, HM.
      cbv zeta. fold (visited k device u t p m w). rewrite Hrun.
      f_equal. lia. }
    split; [done|]. split; [by rewrite Ht, Ht0, app_assoc|].
    rewrite queriesOf_app, printedOf_app, Hq0, Hq, Hp0, Hp.
    split; [|done]. cbn [length seq]. by rewrite bind_cons.
Qed.

(** When no query fails, a cycle asks the driver for each device of the
    list exactly once per class, device after device and in the order
    utilization, temperature, power, memory, and prints nothing. *)
Theorem queries_when_all_succeed nvml w :
  Shaped w →
  (∀ k d, devicesOf w !! k = Some d → allOk nvml k d) →
  ∃ evs,
    trace (Collect nvml w).2 = trace w ++ evs
    ∧ queriesOf evs
      = (j ← seq 0 (length (devicesOf w));
         [(j, Utilization, true); (j, Temperature, true);
          (j, PowerUsage, true); (j, MemoryInfo, true)])
    ∧ printedOf evs = [].
Proof.
  intros Hs Hok.
  destruct (telemetryLoop_prefix_queries nvml (devicesOf w) [] 0 (started w))
    as (w1 & evs & Hrun & HS1 & Ht & Hq & Hp);
    [by apply started_Shaped|done|].
  rewrite app_nil_r in Hrun. cbn [telemetryLoop] in Hrun.
  destruct (cycle_frame_events w w1 evs Ht) as (evs' & Ht' & Hq' & Hp').
  exists evs'. rewrite Hq', Hp', Hq, Hp.
  split; [|done].
  rewrite Collect_unfold. unfold GetTelemetryFromNVML.
  destruct (started_spec w) as (_ & Hd & _). unfold devicesOf in *.
  by rewrite Hd, Hrun.
Qed.

Lemma queries_when_all_succeed_witness :
  ∃ evs,
    trace (Collect healthy (fresh [gpu0; gpu1])).2
    = trace (fresh [gpu0; gpu1]) ++ evs
    ∧ queriesOf evs
      = (j ← seq 0 (length (devicesOf (fresh [gpu0; gpu1])));
         [(j, Utilization, true); (j, Temperature, true);
          (j, PowerUsage, true); (j, MemoryInfo, true)])
    ∧ printedOf evs = [].
Proof.
  apply (queries_when_all_succeed healthy (fresh [gpu0; gpu1])).
  - apply Shaped_compute. reflexivity.
  - intros k d _ c. destruct c; reflexivity.
Defined.

(** The events of an aborted iteration: the stage functions applied so
    far, then [aborted]. *)
Ltac aborted_events Ht1 :=
  unfold aborted, wrotePowerUsage, wroteTemperature, wroteUtilization;
  autorewrite with world; rewrite Ht1, <- ?app_assoc; reflexivity.

(** Fail-fast.  When a query of device [k] is the first of the cycle to
    fail, the cycle has asked the driver for the devices before [k] once
    per class, then for device [k] up to the failing query, and asks
    nothing after it: no later class of device [k] and no later device
    is queried.  It prints one line, which names the class, the UUID of
    device [k] and the text of the error. *)
Theorem fail_fast nvml w k dk c :
  Shaped w →
  devicesOf w !! k = Some dk →
  (∀ j d, (j < k)%nat → devicesOf w !! j = Some d → allOk nvml j d) →
  firstFailure nvml k dk = Some c →
  ∃ err evs,
    queryErr nvml k dk c = Some err
    ∧ trace (Collect nvml w).2 = trace w ++ evs
    ∧ queriesOf evs
      = (j ← seq 0 k;
         [(j, Utilization, true); (j, Temperature, true);
          (j, PowerUsage, true); (j, MemoryInfo, true)])
        ++ ((λ c', (k, c', true)) <$> classesBefore c) ++ [(k, c, false)]
    ∧ printedOf evs
      = ["Failed to get " +:+ className c +:+ " for " +:+ DeviceUUID dk
           +:+ ": " +:+ err +:+ newline].
Proof.
  intros Hs Hk Hok Hff.
  pose proof (lookup_lt_Some _ _ _ Hk) as Hlt.
  destruct (telemetryLoop_prefix_queries nvml (take k (devicesOf w))
              (drop k (devicesOf w)) 0 (started w))
    as (w1 & evs1 & Hrun & HS1 & Ht1 & Hq1 & Hp1).
  { by apply started_Shaped. }
  { intros j d Hj. apply lookup_take_Some in Hj as [Hj Hjk]. by apply Hok. }
  rewrite take_drop, length_take_le, Nat.add_0_l in Hrun by lia.
  rewrite length_take_le in Hq1 by lia.
  rewrite (drop_S _ _ _ Hk), telemetryLoop_cons in Hrun by done.
  assert (GetTelemetryFromNVML nvml (started w)
          = telemetryLoop nvml 0 (devicesOf w) (started w)) as Hget.
  { unfold GetTelemetryFromNVML.
    destruct (started_spec w) as (_ & Hd & _). unfold devicesOf in *.
    by rewrite Hd. }
  rewrite Collect_unfold, Hget, Hrun. clear Hrun Hget.
  unfold firstFailure in Hff. unfold queryErr.
  assert (∀ wT tl,
            trace wT = trace (started w) ++ evs1 ++ tl →
            ∃ evs, trace (finished wT) = trace w ++ evs
                   ∧ queriesOf evs = queriesOf evs1 ++ queriesOf tl
                   ∧ printedOf evs = printedOf tl) as Hframe.
  { intros wT tl Ht.
    destruct (cycle_frame_events w wT _ Ht) as (evs & ? & Hq & Hp).
    exists evs. rewrite Hq, Hp, queriesOf_app, printedOf_app, Hp1. done. }
  destruct (GetUtilization nvml k dk) as [e|u].
  { injection Hff as <-.
    edestruct (Hframe (aborted k Utilization "Device Utilization" dk e w1))
      as (evs & Ht & Hq & Hp); [aborted_events Ht1|].
    exists e, evs. cbn [fst snd]. rewrite Hq, Hp, Hq1. done. }
  cbv zeta.
  destruct (GetTemperature nvml k dk) as [e|t].
  { injection Hff as <-.
    edestruct (Hframe (aborted k Temperature "Device Temperature" dk e
                         (wroteUtilization k dk u w1)))
      as (evs & Ht & Hq & Hp); [aborted_events Ht1|].
    exists e, evs. cbn [fst snd]. rewrite Hq, Hp, Hq1. done. }
  destruct (GetPowerUsage nvml k dk) as [e|p].
  { injection Hff as <-.
    edestruct (Hframe (aborted k PowerUsage "Device Power Usage" dk e
                 (wroteTemperature k dk t (wroteUtilization k dk u w1))))
      as (evs & Ht & Hq & Hp); [aborted_events Ht1|].
    exists e, evs. cbn [fst snd]. rewrite Hq, Hp, Hq1. done. }
  destruct (GetMemoryInfo nvml k dk) as [e|m]; [|done].
  injection Hff as <-.
  edestruct (Hframe (aborted k MemoryInfo "Memory Info" dk e
               (wrotePowerUsage k dk p
                  (wroteTemperature k dk t (wroteUtilization k dk u w1)))))
    as (evs & Ht & Hq & Hp); [aborted_events Ht1|].
  exists e, evs. cbn [fst snd]. rewrite Hq, Hp, Hq1. done.
Qed.

Lemma fail_fast_witness :
  ∃ evs,
    trace (Collect (failing Temperature) (fresh [gpu0; gpu1; gpu0])).2
    = trace (fresh [gpu0; gpu1; gpu0]) ++ evs
    ∧ queriesOf evs
      = [(0%nat, Utilization, true); (0%nat, Temperature, true);
         (0%nat, PowerUsage, true); (0%nat, MemoryInfo, true);
         (1%nat, Utilization, true); (1%nat, Temperature, false)]
    ∧ printedOf evs
      = ["Failed to get Device Temperature for GPU-77e2: GPU is lost"
           +:+ newline].
Proof.
  destruct (fail_fast (failing Temperature) (fresh [gpu0; gpu1; gpu0])
              1%nat gpu1 Temperature) as (err & evs & He & Ht & Hq & Hp).
  - apply Shaped_compute. reflexivity.
  - reflexivity.
  - intros j d Hj _ c. assert (j = 0%nat) as -> by lia. destruct c; reflexivity.
  - reflexivity.
  - exists evs. split; [exact Ht|]. split; [exact Hq|].
    injection He as <-. exact Hp.
Defined.

(** ** Readers of the channel and later cycles *)

Lemma fmap_id_on {A} (f : A → A) (l : list A) :
  (∀ x, x ∈ l → f x = x) → f <$> l = l.
Proof.
  induction l as [|x l IH]; intros H; [done|].
  cbn. rewrite (H x) by left. f_equal. apply IH. intros y Hy. apply H. by right.
Qed.

Lemma readMetric_up now v : readMetric now (upMetric v) = upMetric (up now).
Proof. reflexivity. Qed.

Lemma readMetric_child w now m :
  Shaped w → m ∈ collected (gauges (exporter w)) → readMetric now m = m.
Proof.
  intros Hs Hm.
  apply collected_shaped in Hm as (name & lvs & v & Hn & _ & ->); [|done].
  unfold readMetric. rewrite decide_False; [done|].
  cbn [metricName labelNames]. intros Heq.
  apply (f_equal descName) in Heq. cbn [descName upDesc] in Heq.
  apply BuildFQName_inj in Heq as ->. by apply up_not_in_catalog in Hn.
Qed.

(** The reader of the channel of a cycle gets the children of that
    cycle, and the health gauge as the exporter holds it at the read. *)
Lemma gathered_children_up nvml w now :
  Shaped w →
  gathered nvml w now
  = collected (gauges (exporter (Collect nvml w).2)) ++ [upMetric (up now)].
Proof.
  intros Hs. unfold gathered, channelOf.
  destruct (Collect_shape nvml w Hs)
    as (oks & e & _ & HS & _ & _ & _ & _ & _ & -> & _).
  rewrite drop_app_length, fmap_app. cbn [fmap list_fmap].
  rewrite readMetric_up. f_equal.
  apply fmap_id_on. intros m Hm. by apply (readMetric_child _ _ _ HS).
Qed.

(** A reader that reads before any later cycle gets the snapshot of its
    own cycle. *)
Lemma gathered_at_once nvml w :
  Shaped w →
  gathered nvml w (exporter (Collect nvml w).2) = channelOf nvml w.
Proof.
  intros Hs. rewrite gathered_children_up by done. unfold channelOf.
  destruct (Collect_shape nvml w Hs)
    as (oks & e & _ & _ & _ & _ & _ & _ & _ & -> & _).
  by rewrite drop_app_length.
Qed.

(** C6.  The claim fails on the code.  The cycles themselves run one
    after the other under the lock, but the lock is released when
    [Collect] returns, and the channel holds the health gauge itself.
    Scrape A ends degraded ([nvml_up] sent at 0, series of [gpu0] only,
    [gpu_percent] at 10); scrape B then runs to its end with every
    query answered ([nvml_up] at 1, [gpu_percent] of [gpu0] at 45).  The
    reader of scrape A's channel that reads after B gets A's series
    together with B's [nvml_up = 1]: entries of two cycles in one
    snapshot, which neither cycle exported. *)
Theorem reader_sees_two_cycles :
  scrapeA.1 = Ret tt ∧ scrapeB.1 = Ret tt
  ∧ upOf scrapeA.2 = 0 ∧ upOf scrapeB.2 = 1
  ∧ gathered (failing Utilization) (fresh [gpu0; gpu1]) (exporter scrapeB.2)
    = collected (gauges (exporter scrapeA.2)) ++ [upMetric 1]
  ∧ mkMetric "nvml_gpu_percent" ["device_id"; "device_uuid"; "device_name"]
      ["0"; "GPU-5a1c"; "Tesla K80"] 10
    ∈ gathered (failing Utilization) (fresh [gpu0; gpu1]) (exporter scrapeB.2)
  ∧ (mkMetric "nvml_gpu_percent" ["device_id"; "device_uuid"; "device_name"]
       ["0"; "GPU-5a1c"; "Tesla K80"] 10
     ∉ channelOf healthy scrapeA.2)
  ∧ upMetric 1
    ∈ gathered (failing Utilization) (fresh [gpu0; gpu1]) (exporter scrapeB.2)
  ∧ (upMetric 1 ∉ channelOf (failing Utilization) (fresh [gpu0; gpu1]))
  ∧ gathered (failing Utilization) (fresh [gpu0; gpu1]) (exporter scrapeB.2)
    ≠ channelOf (failing Utilization) (fresh [gpu0; gpu1])
  ∧ gathered (failing Utilization) (fresh [gpu0; gpu1]) (exporter scrapeB.2)
    ≠ channelOf healthy scrapeA.2.
Proof.
  assert (Shaped (fresh [gpu0; gpu1])) as Hs.
  { apply Shaped_compute. reflexivity. }
  assert (upOf scrapeB.2 = 1) as HuB by (vm_compute; reflexivity).
  split; [vm_compute; reflexivity|]. split; [vm_compute; reflexivity|].
  split; [vm_compute; reflexivity|]. split; [done|].
  split.
  { rewrite gathered_children_up by done. unfold upOf in HuB.
    by rewrite HuB. }
  split; [apply elem_of_compute; vm_compute; reflexivity|].
  split; [apply not_elem_of_compute; vm_compute; reflexivity|].
  split; [apply elem_of_compute; vm_compute; reflexivity|].
  split; [apply not_elem_of_compute; vm_compute; reflexivity|].
  split.
  - intros Heq.
    assert (upMetric 1 ∈ channelOf (failing Utilization) (fresh [gpu0; gpu1]))
      as Hin.
    { rewrite <- Heq. apply elem_of_compute. vm_compute. reflexivity. }
    revert Hin. apply not_elem_of_compute. vm_compute. reflexivity.
  - intros Heq.
    assert (mkMetric "nvml_gpu_percent"
              ["device_id"; "device_uuid"; "device_name"]
              ["0"; "GPU-5a1c"; "Tesla K80"] 10
            ∈ channelOf healthy scrapeA.2) as Hin.
    { rewrite <- Heq. apply elem_of_compute. vm_compute. reflexivity. }
    revert Hin. apply not_elem_of_compute. vm_compute. reflexivity.
Qed.
